(** * Unity Catalog profiling proxy: shallow embedding and verified properties

    Source: metadata-ingestion/src/datahub/ingestion/source/unity/proxy_profiling.py
    (class UnityCatalogProxyProfilingMixin).

    The mixin talks to three remote collaborators (statement execution,
    statement status lookup, table metadata lookup), sleeps between polls and
    mutates a report object.  The embedding threads an explicit state
    (remote world, report, event log) through a small state-and-exception
    monad.  The remote collaborators are the fields of the class [Env]:
    every theorem holds for every implementation of them. *)

From Stdlib Require Import ZArith Lia.
From Stdlib Require Import Strings.String Strings.Ascii.
From stdpp Require Import gmap strings list.

Local Open Scope string_scope.
Local Open Scope list_scope.
Local Open Scope Z_scope.

(** ** Python built-ins used by the source *)

(** [str.find(c)] for a one-character needle: index of the first occurrence,
    or -1. *)
Fixpoint py_find (c : ascii) (s : string) : Z :=
  match s with
  | EmptyString => -1
  | String a s' =>
      if Ascii.eqb a c then 0
      else let r := py_find c s' in if r <? 0 then -1 else r + 1
  end.

(** [len(s)] as a Python int. *)
Definition py_len (s : string) : Z := Z.of_nat (String.length s).

Fixpoint str_take (n : nat) (s : string) : string :=
  match n, s with
  | S n', String a s' => String a (str_take n' s')
  | _, _ => EmptyString
  end.

(** [s[:idx]]: a negative bound counts from the end, bounds are clamped. *)
Definition py_slice_to (s : string) (idx : Z) : string :=
  let stop := if idx <? 0 then Z.max 0 (py_len s + idx) else idx in
  str_take (Z.to_nat stop) s.

(** [a or b] on ints: the first operand unless it is falsy (zero). *)
Definition py_or (a b : Z) : Z := if a =? 0 then b else a.

(** [needle in hay] on strings. *)
Fixpoint py_in (needle hay : string) : bool :=
  if String.prefix needle hay then true
  else match hay with
       | EmptyString => false
       | String _ hay' => py_in needle hay'
       end.

(** ** Data model *)

Inductive StatementState :=
  PENDING | RUNNING | SUCCEEDED | FAILED | CANCELED | CLOSED.

Definition StatementState_eqb (a b : StatementState) : bool :=
  match a, b with
  | PENDING, PENDING | RUNNING, RUNNING | SUCCEEDED, SUCCEEDED
  | FAILED, FAILED | CANCELED, CANCELED | CLOSED, CLOSED => true
  | _, _ => false
  end.

(** [StatementState.value] *)
Definition StatementState_value (s : StatementState) : string :=
  match s with
  | PENDING => "PENDING" | RUNNING => "RUNNING" | SUCCEEDED => "SUCCEEDED"
  | FAILED => "FAILED" | CANCELED => "CANCELED" | CLOSED => "CLOSED"
  end.

(** [status.error]: message and [error_code.value]. *)
Record ServiceError := {
  se_message : string;
  se_error_code : string
}.

Record StatementStatus := {
  state : StatementState;
  error : ServiceError
}.

(** [ExecuteStatementResponse] and [GetStatementResponse]: the source reads
    the same two attributes of both. *)
Record StatementResponse := {
  statement_id : string;
  status : StatementStatus
}.

(** [DatabricksError(message, error_code=..., status=..., context=...)];
    [str(e)] is the message. *)
Record DatabricksError := {
  de_message : string;
  de_error_code : string;
  de_status : string;
  de_context : string
}.

Definition str_of_error (e : DatabricksError) : string := de_message e.

Record TableReference := {
  catalog : string;
  schema : string;
  table : string
}.

Record ColumnInfo := { ci_name : string }.

Record TableInfo := {
  ti_name : string;
  columns : list ColumnInfo;
  properties : gmap string string
}.

Record ColumnProfile := {
  cp_name : string;
  null_count : option Z;
  distinct_count : option Z;
  cp_min : option string;
  cp_max : option string;
  avg_len : option string;
  max_len : option string;
  version : option string
}.

Record TableProfile := {
  num_rows : option Z;
  total_size : option Z;
  num_columns : Z;
  column_profiles : list ColumnProfile
}.

(** The fields of [UnityCatalogReport] the mixin writes.
    Modelled from the spec: the class is not under src; its collections are
    bounded ("lossy"), its counters are plain integers. *)
Record UnityCatalogReport := {
  profile_table_timeouts : list string;
  profile_table_errors : gmap string (list (string * string));
  num_profile_failed_unsupported_column_type : Z;
  num_profile_failed_int_casts : Z
}.

(** Modelled from the spec: [LossyList] (datahub.utilities.lossy_collections)
    is a capacity-limited container that drops entries under overflow
    instead of growing; the capacity is a parameter. *)
Definition LossyList_append {A} (max_elements : nat) (l : list A) (x : A) : list A :=
  if (length l <? max_elements)%nat then l ++ [x] else l.

(** The four writes the mixin makes to [self.report]. *)

(** [report.num_profile_failed_int_casts += 1] *)
Definition count_failed_int_cast (r : UnityCatalogReport) : UnityCatalogReport :=
  {| profile_table_timeouts := profile_table_timeouts r;
     profile_table_errors := profile_table_errors r;
     num_profile_failed_unsupported_column_type :=
       num_profile_failed_unsupported_column_type r;
     num_profile_failed_int_casts := num_profile_failed_int_casts r + 1 |}.

(** [report.num_profile_failed_unsupported_column_type += 1] *)
Definition count_unsupported_column_type (r : UnityCatalogReport) : UnityCatalogReport :=
  {| profile_table_timeouts := profile_table_timeouts r;
     profile_table_errors := profile_table_errors r;
     num_profile_failed_unsupported_column_type :=
       num_profile_failed_unsupported_column_type r + 1;
     num_profile_failed_int_casts := num_profile_failed_int_casts r |}.

(** [report.profile_table_timeouts.append(name)] *)
Definition append_timeout (max_elements : nat) (name : string) (r : UnityCatalogReport)
    : UnityCatalogReport :=
  {| profile_table_timeouts := LossyList_append max_elements (profile_table_timeouts r) name;
     profile_table_errors := profile_table_errors r;
     num_profile_failed_unsupported_column_type :=
       num_profile_failed_unsupported_column_type r;
     num_profile_failed_int_casts := num_profile_failed_int_casts r |}.

(** [report.profile_table_errors.setdefault(base_msg, LossyList()).append(sample)]:
    the list stored under [base_msg] (a fresh one when the key is new) gets
    the sample. *)
Definition append_error (max_elements : nat) (base_msg : string) (sample : string * string)
    (r : UnityCatalogReport) : UnityCatalogReport :=
  let samples := default [] (profile_table_errors r !! base_msg) in
  {| profile_table_timeouts := profile_table_timeouts r;
     profile_table_errors :=
       <[base_msg := LossyList_append max_elements samples sample]> (profile_table_errors r);
     num_profile_failed_unsupported_column_type :=
       num_profile_failed_unsupported_column_type r;
     num_profile_failed_int_casts := num_profile_failed_int_casts r |}.

(** A remote call either returns or raises [DatabricksError], the one
    exception class the source handles. *)
Inductive Result (A : Type) :=
  | Returns (a : A)
  | Raises (e : DatabricksError).
Arguments Returns {A} a.
Arguments Raises {A} e.

(** Log of the effects of a run, oldest first.  A status lookup is logged
    with what it answered.  [EvInspect s] is a ghost event: the poller
    compared the state [s] with SUCCEEDED. *)
Inductive Event :=
  | EvExecute (statement catalog_name : string)
  | EvSleep (secs : Z)
  | EvGetStatement (id : string) (answer : Result StatementResponse)
  | EvInspect (s : StatementState)
  | EvGetTable (qualified_name : string).

(** ** Collaborators *)

Class Env := {
  (** the remote system and the clock *)
  World : Type;
  (** [self.warehouse_id] *)
  warehouse_id : string;
  (** [statement_execution.execute_statement(statement, catalog, wait_timeout, warehouse_id)] *)
  execute_statement : string -> string -> string -> string -> World -> World * Result StatementResponse;
  (** [statement_execution.get_statement(statement_id)] *)
  get_statement : string -> World -> World * Result StatementResponse;
  (** [tables.get(qualified_table_name)] *)
  tables_get : string -> World -> World * Result TableInfo;
  (** [time.sleep(secs)] *)
  sleep : Z -> World -> World;
  (** [int(value)] on a string: [None] stands for ValueError *)
  parse_int : string -> option Z;
  (** [str(ref)] and [ref.qualified_table_name] *)
  ref_str : TableReference -> string;
  qualified_table_name : TableReference -> string;
  (** capacity of a [LossyList()] *)
  max_elements : nat
}.

Section Embedding.
Context {E : Env}.

Record State := {
  world : World;
  report : UnityCatalogReport;
  trace : list Event
}.

(** ** State-and-exception monad; [None] is an exhausted iteration budget *)

Definition M (A : Type) : Type := State -> option (State * Result A).

Definition ret {A} (a : A) : M A := fun st => Some (st, Returns a).

Definition bind {A B} (m : M A) (k : A -> M B) : M B :=
  fun st =>
    match m st with
    | None => None
    | Some (st', Returns a) => k a st'
    | Some (st', Raises e) => Some (st', Raises e)
    end.

Definition raise {A} (e : DatabricksError) : M A := fun st => Some (st, Raises e).

(** [try: body except DatabricksError as e: handler(e)] *)
Definition try_except {A} (body : M A) (handler : DatabricksError -> M A) : M A :=
  fun st =>
    match body st with
    | None => None
    | Some (st', Returns a) => Some (st', Returns a)
    | Some (st', Raises e) => handler e st'
    end.

Definition exhausted {A} : M A := fun _ => None.

Definition log (ev : Event) (st : State) : State :=
  {| world := world st; report := report st; trace := trace st ++ [ev] |}.

Definition remote {A} (ev : Result A -> Event) (call : World -> World * Result A) : M A :=
  fun st =>
    let (w, r) := call (world st) in
    Some ({| world := w; report := report st; trace := trace st ++ [ev r] |}, r).

Definition with_report (f : UnityCatalogReport -> UnityCatalogReport) (st : State) : State :=
  {| world := world st; report := f (report st); trace := trace st |}.

Definition modify_report (f : UnityCatalogReport -> UnityCatalogReport) : M unit :=
  fun st => Some (with_report f st, Returns tt).

Definition time_sleep (secs : Z) : M unit :=
  fun st =>
    Some ({| world := sleep secs (world st); report := report st;
             trace := trace st ++ [EvSleep secs] |}, Returns tt).

(** Reading [status.state] inside the poller. *)
Definition inspect (s : StatementStatus) : M StatementState :=
  fun st => Some (log (EvInspect (state s)) st, Returns (state s)).

End Embedding.

Declare Scope monad_scope.
Delimit Scope monad_scope with monad.
Notation "'let*' x ':=' m 'in' k" := (bind m (fun x => k))
  (at level 10, x name, m at level 100, k at level 200) : monad_scope.
Local Open Scope monad_scope.

Section Mixin.
Context {E : Env}.

(** ** The mixin *)

(** [_raise_if_error] *)
Definition _raise_if_error (response : StatementResponse) (key : string) : M unit :=
  match state (status response) with
  | FAILED | CANCELED | CLOSED =>
      raise {| de_message := se_message (error (status response));
               de_error_code := se_error_code (error (status response));
               de_status := StatementState_value (state (status response));
               de_context := key |}
  | _ => ret tt
  end.

(** The statement text [_analyze_table] builds. *)
Definition analyze_statement (ref : TableReference) (include_columns : bool) : string :=
  let statement := "ANALYZE TABLE " +:+ schema ref +:+ "." +:+ table ref +:+ " COMPUTE STATISTICS" in
  if include_columns then statement +:+ " FOR ALL COLUMNS" else statement.

(** [_analyze_table] *)
Definition _analyze_table (ref : TableReference) (include_columns : bool) : M StatementResponse :=
  let statement := analyze_statement ref include_columns in
  let* response := remote (fun _ => EvExecute statement (catalog ref))
                     (execute_statement statement (catalog ref) "0s" warehouse_id) in
  let* _ := _raise_if_error response "analyze-table" in
  ret response.

(** The guard of the [while]: [and] evaluates [status.state] only when the
    budget test holds. *)
Definition poll_guard (max_wait_secs total_wait_time : Z) (st : StatementStatus) : M bool :=
  if total_wait_time <? max_wait_secs then
    let* s := inspect st in ret (negb (StatementState_eqb s SUCCEEDED))
  else ret false.

(** The [while] loop of [_check_analyze_table_statement_status]; it yields
    the status held when the guard fails.  [fuel] bounds the iterations. *)
Fixpoint poll_loop (fuel : nat) (id : string) (max_wait_secs total_wait_time backoff_sec : Z)
    (st : StatementStatus) : M StatementStatus :=
  match fuel with
  | O => exhausted
  | S fuel' =>
      let* continue := poll_guard max_wait_secs total_wait_time st in
      if continue : bool then
        let* _ := time_sleep (Z.min backoff_sec (max_wait_secs - total_wait_time)) in
        let total_wait_time := total_wait_time + backoff_sec in
        let backoff_sec := backoff_sec * 2 in
        let* response := remote (EvGetStatement id) (get_statement id) in
        let* _ := _raise_if_error response "get-statement" in
        poll_loop fuel' id max_wait_secs total_wait_time backoff_sec (status response)
      else ret st
  end.

(** Iteration budget handed to the loop: more than it can use, since every
    iteration adds at least 1 to [total_wait_time]. *)
Definition poll_fuel (max_wait_secs : Z) : nat := S (Z.to_nat max_wait_secs).

(** [_check_analyze_table_statement_status] *)
Definition _check_analyze_table_statement_status
    (execute_response : StatementResponse) (max_wait_secs : Z) : M bool :=
  let* final := poll_loop (poll_fuel max_wait_secs) (statement_id execute_response)
                  max_wait_secs 0 1 (status execute_response) in
  let* s := inspect final in
  ret (StatementState_eqb s SUCCEEDED).

(** [_get_int] *)
Definition _get_int (table_info : TableInfo) (field : string) : M (option Z) :=
  match properties table_info !! field with
  | Some value =>
      match parse_int value with
      | Some n => ret (Some n)
      | None =>
          let* _ := modify_report count_failed_int_cast in
          ret None
      end
  | None => ret None
  end.

(** The property keys the extractor reads. *)
Definition num_rows_key : string := "spark.sql.statistics.numRows".
Definition total_size_key : string := "spark.sql.statistics.totalSize".
Definition col_stats_key (column suffix : string) : string :=
  "spark.sql.statistics.colStats." +:+ column +:+ suffix.

(** [_create_column_profile] *)
Definition _create_column_profile (column : string) (table_info : TableInfo) : M ColumnProfile :=
  let key := col_stats_key column in
  let* nulls := _get_int table_info (key ".nullCount") in
  let* distinct := _get_int table_info (key ".distinctCount") in
  ret {| cp_name := column;
         null_count := nulls;
         distinct_count := distinct;
         cp_min := properties table_info !! key ".min";
         cp_max := properties table_info !! key ".max";
         avg_len := properties table_info !! key ".avgLen";
         max_len := properties table_info !! key ".maxLen";
         version := properties table_info !! key ".version" |}.

(** The list comprehension over the column names. *)
Fixpoint column_profiles_of (columns_names : list string) (table_info : TableInfo)
    : M (list ColumnProfile) :=
  match columns_names with
  | [] => ret []
  | column :: rest =>
      let* p := _create_column_profile column table_info in
      let* ps := column_profiles_of rest table_info in
      ret (p :: ps)
  end.

(** [_create_table_profile] *)
Definition _create_table_profile (table_info : TableInfo) (include_columns : bool) : M TableProfile :=
  let columns_names := map ci_name (columns table_info) in
  let* rows := _get_int table_info num_rows_key in
  let* size := _get_int table_info total_size_key in
  let* profiles := (if include_columns then column_profiles_of columns_names table_info
                    else ret []) in
  ret {| num_rows := rows;
         total_size := size;
         num_columns := Z.of_nat (length columns_names);
         column_profiles := profiles |}.

(** [_get_table_profile] *)
Definition _get_table_profile (ref : TableReference) (include_columns : bool) : M TableProfile :=
  let* table_info := remote (fun _ => EvGetTable (qualified_table_name ref))
                       (tables_get (qualified_table_name ref)) in
  _create_table_profile table_info include_columns.

Definition unsupported_column_token : string :=
  "[UNSUPPORTED_FEATURE.ANALYZE_UNSUPPORTED_COLUMN_TYPE]".

(** [_should_retry_unsupported_column] *)
Definition _should_retry_unsupported_column (ref : TableReference) (e : DatabricksError) : M bool :=
  if py_in unsupported_column_token (str_of_error e) then
    let* _ := modify_report count_unsupported_column_type in
    ret true
  else ret false.

(** The [try] block of [get_table_stats]. *)
Definition get_table_stats_try (ref : TableReference) (max_wait_secs : Z)
    (call_analyze include_columns : bool) : M (option TableProfile) :=
  let fetch := (let* p := _get_table_profile ref include_columns in ret (Some p)) in
  if call_analyze then
    let* response := _analyze_table ref include_columns in
    let* success := _check_analyze_table_statement_status response max_wait_secs in
    if negb success then
      let* _ := modify_report (append_timeout max_elements (ref_str ref)) in
      ret None
    else fetch
  else fetch.

(** The grouping key computed at the top of the [except] block. *)
Definition base_msg_of (msg : string) : string :=
  let idx := py_or (py_or (py_find "`" msg + 1) (py_find "'" msg + 1)) (py_len msg) in
  py_slice_to msg idx.

(** [profile_table_errors.setdefault(base_msg, LossyList()).append((str(ref), msg))] *)
Definition record_error (ref : TableReference) (e : DatabricksError) : M unit :=
  let msg := str_of_error e in
  let base_msg := base_msg_of msg in
  modify_report (append_error max_elements base_msg (ref_str ref, msg)).

(** The retry guard: [call_analyze and include_columns and
    self._should_retry_unsupported_column(ref, e)], evaluated left to right. *)
Definition retry_guard (ref : TableReference) (e : DatabricksError)
    (call_analyze include_columns : bool) : M bool :=
  if call_analyze then
    if include_columns then _should_retry_unsupported_column ref e else ret false
  else ret false.

(** [get_table_stats].  [depth] bounds the nesting of the self-call. *)
Fixpoint get_table_stats (depth : nat) (ref : TableReference) (max_wait_secs : Z)
    (call_analyze include_columns : bool) : M (option TableProfile) :=
  match depth with
  | O => exhausted
  | S depth' =>
      try_except
        (get_table_stats_try ref max_wait_secs call_analyze include_columns)
        (fun e =>
           let* _ := record_error ref e in
           let* again := retry_guard ref e call_analyze include_columns in
           if again : bool then
             get_table_stats depth' ref max_wait_secs call_analyze false
           else ret None)
  end.

End Mixin.

(** ** Specification-side vocabulary *)

(** The sleeps recorded in an event log, oldest first. *)
Fixpoint sleeps_of (evs : list Event) : list Z :=
  match evs with
  | [] => []
  | EvSleep d :: rest => d :: sleeps_of rest
  | _ :: rest => sleeps_of rest
  end.

(** The states the poller inspected, oldest first. *)
Fixpoint inspections_of (evs : list Event) : list StatementState :=
  match evs with
  | [] => []
  | EvInspect s :: rest => s :: inspections_of rest
  | _ :: rest => inspections_of rest
  end.

(** The statements submitted, oldest first. *)
Fixpoint submissions_of (evs : list Event) : list string :=
  match evs with
  | [] => []
  | EvExecute statement _ :: rest => statement :: submissions_of rest
  | _ :: rest => submissions_of rest
  end.

(** Backoff scheduled for iteration [i] (counted from 0): 1, 2, 4, 8, ... *)
Definition scheduled_backoff (i : nat) : Z := 2 ^ Z.of_nat i.

(** Wait accumulated before iteration [i]: the sum of the backoffs scheduled
    for the iterations before it. *)
Fixpoint scheduled_wait (i : nat) : Z :=
  match i with
  | O => 0
  | S j => scheduled_wait j + scheduled_backoff j
  end.

Definition non_terminal (s : StatementState) : bool :=
  match s with
  | PENDING | RUNNING => true
  | _ => false
  end.

Section Vocabulary.
Context {E : Env}.

(** State after the [except] block has filed the error [e] raised for [ref]. *)
Definition recorded (ref : TableReference) (e : DatabricksError) (st : State) : State :=
  with_report
    (append_error max_elements (base_msg_of (str_of_error e)) (ref_str ref, str_of_error e)) st.

(** State after the unsupported-column counter went up by one. *)
Definition counted (st : State) : State := with_report count_unsupported_column_type st.

(** The value stored under [key] is there and is not an integer. *)
Definition unparseable (table_info : TableInfo) (key : string) : bool :=
  match properties table_info !! key with
  | Some value => match parse_int value with Some _ => false | None => true end
  | None => false
  end.

(** The integer the extractor gets out of [key]: absent when the key is
    missing or its value is not an integer. *)
Definition parsed (table_info : TableInfo) (key : string) : option Z :=
  properties table_info !! key ≫= parse_int.

(** The profile as a function of the metadata alone. *)
Definition column_profile_of (table_info : TableInfo) (column : string) : ColumnProfile :=
  {| cp_name := column;
     null_count := parsed table_info (col_stats_key column ".nullCount");
     distinct_count := parsed table_info (col_stats_key column ".distinctCount");
     cp_min := properties table_info !! col_stats_key column ".min";
     cp_max := properties table_info !! col_stats_key column ".max";
     avg_len := properties table_info !! col_stats_key column ".avgLen";
     max_len := properties table_info !! col_stats_key column ".maxLen";
     version := properties table_info !! col_stats_key column ".version" |}.

Definition table_profile_of (table_info : TableInfo) (include_columns : bool) : TableProfile :=
  {| num_rows := parsed table_info num_rows_key;
     total_size := parsed table_info total_size_key;
     num_columns := Z.of_nat (length (columns table_info));
     column_profiles :=
       if include_columns
       then map (column_profile_of table_info) (map ci_name (columns table_info))
       else [] |}.

(** The keys [_create_table_profile] parses as integers, in the order it
    reads them. *)
Definition numeric_keys (table_info : TableInfo) (include_columns : bool) : list string :=
  [num_rows_key; total_size_key] ++
  (if include_columns
   then flat_map (fun column => [col_stats_key column ".nullCount";
                                 col_stats_key column ".distinctCount"])
          (map ci_name (columns table_info))
   else []).

(** The events a run of [m] from [st] appends to the log. *)
Definition events_of {A} (m : M A) (st : State) : list Event :=
  match m st with
  | Some (st', _) => drop (length (trace st)) (trace st')
  | None => []
  end.

(** State right after [_analyze_table] submitted its statement and the
    remote system moved to [w]. *)
Definition submitted (ref : TableReference) (include_columns : bool) (w : World) (st : State)
    : State :=
  {| world := w; report := report st;
     trace := trace st ++ [EvExecute (analyze_statement ref include_columns) (catalog ref)] |}.

(** How many of [keys] hold a value that is not an integer. *)
Definition failed_casts (table_info : TableInfo) (keys : list string) : Z :=
  Z.of_nat (length (List.filter (unparseable table_info) keys)).

(** [st'] differs from [st] at most in the parse-failure counter, which went
    up by [n]. *)
Definition only_int_casts (n : Z) (st st' : State) : Prop :=
  world st' = world st /\ trace st' = trace st
  /\ profile_table_timeouts (report st') = profile_table_timeouts (report st)
  /\ profile_table_errors (report st') = profile_table_errors (report st)
  /\ num_profile_failed_unsupported_column_type (report st')
     = num_profile_failed_unsupported_column_type (report st)
  /\ num_profile_failed_int_casts (report st') = num_profile_failed_int_casts (report st) + n.

End Vocabulary.

(** Every error sample filed in [r] is still filed, under the same key, in [r']. *)
Definition keeps_samples (r r' : UnityCatalogReport) : Prop :=
  forall key sample,
    sample ∈ default [] (profile_table_errors r !! key) ->
    sample ∈ default [] (profile_table_errors r' !! key).

(** If [ev] is a status lookup, it was answered with a PENDING or RUNNING
    status. *)
Definition answered_non_terminal (ev : Event) : Prop :=
  match ev with
  | EvGetStatement _ (Returns response) => non_terminal (state (status response)) = true
  | EvGetStatement _ (Raises _) => False
  | _ => True
  end.

(** No occurrence of the character [c] in [s]. *)
Definition lacks (c : ascii) (s : string) : Prop := ~ In c (list_ascii_of_string s).

(** ** A scripted environment, for running the mixin on concrete inputs *)

Record Script := {
  sc_execute : list (Result StatementResponse);
  sc_polls : list (Result StatementResponse);
  sc_tables : list (Result TableInfo)
}.

Definition response_in (s : StatementState) (msg : string) : StatementResponse :=
  {| statement_id := "stmt-1";
     status := {| state := s; error := {| se_message := msg; se_error_code := "ERR" |} |} |}.

Definition sdk_error (msg : string) : DatabricksError :=
  {| de_message := msg; de_error_code := "SDK"; de_status := ""; de_context := "" |}.

Definition digit_of (a : ascii) : option Z :=
  let n := Z.of_N (N_of_ascii a) in
  if (48 <=? n) && (n <=? 57) then Some (n - 48) else None.

Fixpoint decimal_digits (acc : Z) (s : string) : option Z :=
  match s with
  | EmptyString => Some acc
  | String a s' =>
      match digit_of a with
      | Some d => decimal_digits (acc * 10 + d) s'
      | None => None
      end
  end.

(** Plain decimal numerals, a fragment of what [int()] accepts. *)
Definition decimal_int (s : string) : option Z :=
  match s with
  | EmptyString => None
  | String _ _ => decimal_digits 0 s
  end.

Definition dotted (ref : TableReference) : string :=
  catalog ref +:+ "." +:+ schema ref +:+ "." +:+ table ref.

(** Remote calls answer from the script, in order; an exhausted script keeps
    answering RUNNING (statements) or an empty table. *)
Definition script_env : Env :=
  {| World := Script;
     warehouse_id := "warehouse-1";
     execute_statement := fun _ _ _ _ w =>
       match sc_execute w with
       | r :: rest =>
           ({| sc_execute := rest; sc_polls := sc_polls w; sc_tables := sc_tables w |}, r)
       | [] => (w, Returns (response_in RUNNING ""))
       end;
     get_statement := fun _ w =>
       match sc_polls w with
       | r :: rest =>
           ({| sc_execute := sc_execute w; sc_polls := rest; sc_tables := sc_tables w |}, r)
       | [] => (w, Returns (response_in RUNNING ""))
       end;
     tables_get := fun _ w =>
       match sc_tables w with
       | r :: rest =>
           ({| sc_execute := sc_execute w; sc_polls := sc_polls w; sc_tables := rest |}, r)
       | [] => (w, Returns {| ti_name := ""; columns := []; properties := ∅ |})
       end;
     sleep := fun _ w => w;
     parse_int := decimal_int;
     ref_str := dotted;
     qualified_table_name := dotted;
     max_elements := 10 |}.

Definition empty_report : UnityCatalogReport :=
  {| profile_table_timeouts := [];
     profile_table_errors := ∅;
     num_profile_failed_unsupported_column_type := 0;
     num_profile_failed_int_casts := 0 |}.

Definition script_state (w : Script) : @State script_env :=
  @Build_State script_env w empty_report [].

Definition sample_ref : TableReference :=
  {| catalog := "main"; schema := "sales"; table := "orders" |}.

(** State a run of [m] from [st] ends in ([st] itself when the budget runs
    out). *)
Definition state_after {E : Env} {A} (m : M A) (st : State) : State :=
  match m st with
  | Some (st', _) => st'
  | None => st
  end.

(** The statement is submitted PENDING, is RUNNING at the first two lookups
    and SUCCEEDED at the third. *)
Definition succeeding_world : Script :=
  {| sc_execute := [Returns (response_in PENDING "")];
     sc_polls := [Returns (response_in RUNNING ""); Returns (response_in RUNNING "");
                  Returns (response_in SUCCEEDED "")];
     sc_tables := [] |}.

(** The statement is submitted and stays RUNNING for good. *)
Definition pending_world : Script :=
  {| sc_execute := []; sc_polls := []; sc_tables := [] |}.

Definition unsupported_column_message : string :=
  "Column `x` has type MAP which is unsupported [UNSUPPORTED_FEATURE.ANALYZE_UNSUPPORTED_COLUMN_TYPE]".

(** The error [_raise_if_error] makes of that failure at submission. *)
Definition unsupported_column_error : DatabricksError :=
  {| de_message := unsupported_column_message; de_error_code := "ERR";
     de_status := "FAILED"; de_context := "analyze-table" |}.

(** The statement for all columns fails on a MAP column; the one without
    columns is SUCCEEDED at once. *)
Definition unsupported_column_world : Script :=
  {| sc_execute := [Returns (response_in FAILED unsupported_column_message);
                    Returns (response_in SUCCEEDED "")];
     sc_polls := [];
     sc_tables := [] |}.

(** Both statements fail on the MAP column. *)
Definition twice_unsupported_world : Script :=
  {| sc_execute := [Returns (response_in FAILED unsupported_column_message);
                    Returns (response_in FAILED unsupported_column_message)];
     sc_polls := [];
     sc_tables := [] |}.

(** The metadata fetch fails with the given messages, in turn. *)
Definition failing_fetch_world (msgs : list string) : Script :=
  {| sc_execute := []; sc_polls := [];
     sc_tables := map (fun msg => Raises (sdk_error msg)) msgs |}.

Definition sample_table (props : gmap string string) : TableInfo :=
  {| ti_name := "orders"; columns := [{| ci_name := "id" |}; {| ci_name := "price" |}];
     properties := props |}.

(** ** The warehouse methods of the mixin *)

(** [self._workspace_client.warehouses]: the two calls the mixin makes.  What
    they return is opaque to the mixin. *)
Class Warehouses {E : Env} := {
  WarehouseInfo : Type;
  WarehouseWait : Type;
  (** [warehouses.get(warehouse_id)] *)
  warehouses_get : string -> World -> World * Result WarehouseInfo;
  (** [warehouses.start(warehouse_id)] *)
  warehouses_start : string -> World -> World * Result WarehouseWait
}.

Section WarehouseMethods.
Context {E : Env} {W : Warehouses}.

(** A warehouse call: it moves the remote system on; the profiling log keeps
    no entry for it. *)
Definition warehouse_call {A} (call : World -> World * Result A) : M A :=
  fun st =>
    let (w, r) := call (world st) in
    Some ({| world := w; report := report st; trace := trace st |}, r).

(** [check_profiling_connectivity] *)
Definition check_profiling_connectivity : M bool :=
  let* _ := warehouse_call (warehouses_get warehouse_id) in
  ret true.

(** [start_warehouse] *)
Definition start_warehouse : M (option WarehouseWait) :=
  try_except
    (let* wait := warehouse_call (warehouses_start warehouse_id) in ret (Some wait))
    (fun e => ret None).

End WarehouseMethods.

(** ** Vocabulary for the run of the poller and of a whole call *)

(** The status lookups recorded in an event log, with their answers. *)
Fixpoint lookups_of (evs : list Event) : list (string * Result StatementResponse) :=
  match evs with
  | [] => []
  | EvGetStatement id answer :: rest => (id, answer) :: lookups_of rest
  | _ :: rest => lookups_of rest
  end.

(** The metadata fetches recorded in an event log. *)
Fixpoint fetches_of (evs : list Event) : list string :=
  match evs with
  | [] => []
  | EvGetTable name :: rest => name :: fetches_of rest
  | _ :: rest => fetches_of rest
  end.

(** Time slept in all by the sleeps of an event log. *)
Definition total_sleep (evs : list Event) : Z := foldr Z.add 0 (sleeps_of evs).

(** The error [_raise_if_error] raises for a response under [key], if any. *)
Definition failure_of (key : string) (response : StatementResponse) : option DatabricksError :=
  match state (status response) with
  | FAILED | CANCELED | CLOSED =>
      Some {| de_message := se_message (error (status response));
              de_error_code := se_error_code (error (status response));
              de_status := StatementState_value (state (status response));
              de_context := key |}
  | _ => None
  end.

(** The runs of the polling loop, as a relation: [polled id max_wait k s evs r]
    when the loop, entering iteration [k] with status [s], logs [evs] and
    ends in [r]. *)
Inductive polled (id : string) (max_wait_secs : Z)
    : nat -> StatementStatus -> list Event -> Result StatementStatus -> Prop :=
  | polled_out_of_budget k s :
      max_wait_secs <= scheduled_wait k ->
      polled id max_wait_secs k s [] (Returns s)
  | polled_succeeded k s :
      scheduled_wait k < max_wait_secs ->
      state s = SUCCEEDED ->
      polled id max_wait_secs k s [EvInspect (state s)] (Returns s)
  | polled_lookup_raised k s e :
      scheduled_wait k < max_wait_secs ->
      state s <> SUCCEEDED ->
      polled id max_wait_secs k s
        [EvInspect (state s);
         EvSleep (Z.min (scheduled_backoff k) (max_wait_secs - scheduled_wait k));
         EvGetStatement id (Raises e)]
        (Raises e)
  | polled_statement_failed k s response e :
      scheduled_wait k < max_wait_secs ->
      state s <> SUCCEEDED ->
      failure_of "get-statement" response = Some e ->
      polled id max_wait_secs k s
        [EvInspect (state s);
         EvSleep (Z.min (scheduled_backoff k) (max_wait_secs - scheduled_wait k));
         EvGetStatement id (Returns response)]
        (Raises e)
  | polled_again k s response rest r :
      scheduled_wait k < max_wait_secs ->
      state s <> SUCCEEDED ->
      failure_of "get-statement" response = None ->
      polled id max_wait_secs (S k) (status response) rest r ->
      polled id max_wait_secs k s
        (EvInspect (state s)
         :: EvSleep (Z.min (scheduled_backoff k) (max_wait_secs - scheduled_wait k))
         :: EvGetStatement id (Returns response) :: rest)
        r.

(** An event the poller can log. *)
Definition poller_event (ev : Event) : Prop :=
  match ev with
  | EvInspect _ | EvSleep _ | EvGetStatement _ _ => True
  | _ => False
  end.

(** The report only grows from [r] to [r']: the timeouts of [r] are the first
    timeouts of [r'], every error key and sample of [r] is still in [r'], and
    no counter went down. *)
Definition report_grows (r r' : UnityCatalogReport) : Prop :=
  profile_table_timeouts r `prefix_of` profile_table_timeouts r'
  /\ keeps_samples r r'
  /\ (forall key, is_Some (profile_table_errors r !! key) ->
                  is_Some (profile_table_errors r' !! key))
  /\ num_profile_failed_unsupported_column_type r
     <= num_profile_failed_unsupported_column_type r'
  /\ num_profile_failed_int_casts r <= num_profile_failed_int_casts r'.

(** A warehouse service for the scripted environment: it knows one
    warehouse, which it can look up and start. *)
Definition script_warehouses : @Warehouses script_env :=
  {| WarehouseInfo := string;
     WarehouseWait := string;
     warehouses_get := fun id (w : @World script_env) =>
       if String.eqb id "warehouse-1" then (w, Returns "RUNNING")
       else (w, Raises (sdk_error "warehouse not found"));
     warehouses_start := fun id (w : @World script_env) =>
       if String.eqb id "warehouse-1" then (w, Returns "starting")
       else (w, Raises (sdk_error "warehouse not found")) |}.

(** The scripted environment with another warehouse id, unknown to the
    warehouse service. *)
Definition script_env_without_warehouse : Env :=
  {| World := Script;
     warehouse_id := "warehouse-2";
     execute_statement := execute_statement (Env := script_env);
     get_statement := get_statement (Env := script_env);
     tables_get := tables_get (Env := script_env);
     sleep := sleep (Env := script_env);
     parse_int := decimal_int;
     ref_str := dotted;
     qualified_table_name := dotted;
     max_elements := 10 |}.

Definition script_warehouses_missing : @Warehouses script_env_without_warehouse :=
  {| WarehouseInfo := string;
     WarehouseWait := string;
     warehouses_get := fun id (w : @World script_env_without_warehouse) =>
       if String.eqb id "warehouse-1" then (w, Returns "RUNNING")
       else (w, Raises (sdk_error "warehouse not found"));
     warehouses_start := fun id (w : @World script_env_without_warehouse) =>
       if String.eqb id "warehouse-1" then (w, Returns "starting")
       else (w, Raises (sdk_error "warehouse not found")) |}.

(** The statement is RUNNING at the first lookup and FAILED at the second. *)
Definition failing_poll_world : Script :=
  {| sc_execute := [];
     sc_polls := [Returns (response_in RUNNING ""); Returns (response_in FAILED "out of memory")];
     sc_tables := [] |}.

(** The error the poller makes of that failure. *)
Definition failed_poll_error : DatabricksError :=
  {| de_message := "out of memory"; de_error_code := "ERR";
     de_status := "FAILED"; de_context := "get-statement" |}.

(** A table with two columns and statistics for the first. *)
Definition profiled_table : TableInfo :=
  sample_table {[ col_stats_key "id" ".nullCount" := "0" ]}.

(** ** Laws of the monad and of the helper functions *)

Section Proofs.
Context {E : Env}.

Lemma scheduled_backoff_pos i : 1 <= scheduled_backoff i.
Proof.
  unfold scheduled_backoff.
  assert (0 < 2 ^ Z.of_nat i) by (apply Z.pow_pos_nonneg; lia). lia.
Qed.

Lemma scheduled_backoff_S i : scheduled_backoff (S i) = scheduled_backoff i * 2.
Proof.
  unfold scheduled_backoff. rewrite Nat2Z.inj_succ, Z.pow_succ_r by lia. lia.
Qed.

Lemma scheduled_wait_closed i : scheduled_wait i = scheduled_backoff i - 1.
Proof.
  induction i as [|i IH]; [reflexivity|].
  cbn [scheduled_wait]. rewrite IH, scheduled_backoff_S. lia.
Qed.

Lemma sleeps_of_app evs1 evs2 : sleeps_of (evs1 ++ evs2) = sleeps_of evs1 ++ sleeps_of evs2.
Proof.
  induction evs1 as [|ev evs1 IH]; [reflexivity|].
  destruct ev; cbn; rewrite ?IH; reflexivity.
Qed.

Lemma inspections_of_app evs1 evs2 :
  inspections_of (evs1 ++ evs2) = inspections_of evs1 ++ inspections_of evs2.
Proof.
  induction evs1 as [|ev evs1 IH]; [reflexivity|].
  destruct ev; cbn; rewrite ?IH; reflexivity.
Qed.

Lemma submissions_of_app evs1 evs2 :
  submissions_of (evs1 ++ evs2) = submissions_of evs1 ++ submissions_of evs2.
Proof.
  induction evs1 as [|ev evs1 IH]; [reflexivity|].
  destruct ev; cbn; rewrite ?IH; reflexivity.
Qed.

(** What one run of [_raise_if_error] does. *)
Lemma raise_if_error_run response key (st : State) :
  _raise_if_error response key st =
    Some (st, if non_terminal (state (status response))
                 || StatementState_eqb (state (status response)) SUCCEEDED
              then Returns tt
              else Raises {| de_message := se_message (error (status response));
                             de_error_code := se_error_code (error (status response));
                             de_status := StatementState_value (state (status response));
                             de_context := key |}).
Proof. unfold _raise_if_error. destruct (state (status response)); reflexivity. Qed.

(** The schedule the loop follows from iteration [k] on: it always comes to
    an end within the budget, leaves the report alone, sleeps
    [min(backoff, max_wait_secs - waited)] in each iteration, only enters
    an iteration whose accumulated wait is below [max_wait_secs], and reads
    the state it was handed before anything else whenever budget is left. *)
Lemma poll_loop_schedule fuel : forall (k : nat) id max_wait_secs s (st : State),
  (Z.to_nat (max_wait_secs - scheduled_wait k) < fuel)%nat ->
  exists st' r new (n : nat),
    poll_loop fuel id max_wait_secs (scheduled_wait k) (scheduled_backoff k) s st = Some (st', r)
    /\ report st' = report st
    /\ trace st' = trace st ++ new
    /\ sleeps_of new =
         map (fun i => Z.min (scheduled_backoff i) (max_wait_secs - scheduled_wait i)) (seq k n)
    /\ Forall (fun i => scheduled_wait i < max_wait_secs) (seq k n)
    /\ submissions_of new = []
    /\ (if scheduled_wait k <? max_wait_secs
        then exists rest, new = EvInspect (state s) :: rest
        else st' = st /\ r = Returns s).
Proof.
  induction fuel as [|fuel IH]; intros k id mw s st Hfuel; [lia|].
  cbn [poll_loop]. unfold bind at 1, poll_guard.
  destruct (scheduled_wait k <? mw) eqn:Hlt.
  2:{ exists st, (Returns s), [], 0%nat. cbn. rewrite app_nil_r.
      repeat split; constructor. }
  apply Z.ltb_lt in Hlt.
  unfold bind at 1, inspect, ret.
  destruct (negb (StatementState_eqb (state s) SUCCEEDED)).
  2:{ eexists _, (Returns s), [EvInspect (state s)], 0%nat. cbn.
      repeat split; try constructor. eexists; reflexivity. }
  unfold bind at 1, time_sleep.
  unfold bind at 1, remote. cbn [world report trace log].
  destruct (get_statement id (sleep _ (world st))) as [w [response|e]].
  2:{ eexists _, (Raises e), [EvInspect (state s); EvSleep _; EvGetStatement id _], 1%nat.
      cbn. rewrite <- !app_assoc.
      repeat split; repeat constructor; try assumption. eexists; reflexivity. }
  unfold bind at 1. rewrite raise_if_error_run.
  destruct (non_terminal _ || StatementState_eqb _ SUCCEEDED).
  2:{ eexists _, (Raises _), [EvInspect (state s); EvSleep _; EvGetStatement id _], 1%nat.
      cbn. rewrite <- !app_assoc.
      repeat split; repeat constructor; try assumption. eexists; reflexivity. }
  pose proof (scheduled_backoff_pos k) as Hpos.
  replace (scheduled_wait k + scheduled_backoff k) with (scheduled_wait (S k)) by reflexivity.
  rewrite <- scheduled_backoff_S.
  edestruct (IH (S k) id mw (status response))
    as (st' & r & new & n & Hrun & Hrep & Htr & Hsl & Hall & Hsub & _).
  { cbn [scheduled_wait]. lia. }
  rewrite Hrun.
  exists st', r, ([EvInspect (state s);
                   EvSleep (Z.min (scheduled_backoff k) (mw - scheduled_wait k));
                   EvGetStatement id (Returns response)] ++ new), (S n).
  split; [reflexivity|]. split; [rewrite Hrep; reflexivity|].
  split; [rewrite Htr; cbn; rewrite <- !app_assoc; reflexivity|].
  split; [cbn; rewrite Hsl; reflexivity|].
  split; [cbn [seq]; constructor; assumption|].
  split; [exact Hsub|].
  eexists; reflexivity.
Qed.

(** The poller as a whole: the loop from iteration 0, then the final
    comparison with SUCCEEDED, whose outcome is the result. *)
Lemma check_status_run execute_response max_wait_secs (st : State) :
  exists st' r new (n : nat),
    _check_analyze_table_statement_status execute_response max_wait_secs st = Some (st', r)
    /\ report st' = report st
    /\ trace st' = trace st ++ new
    /\ sleeps_of new =
         map (fun i => Z.min (scheduled_backoff i) (max_wait_secs - scheduled_wait i)) (seq 0 n)
    /\ Forall (fun i => scheduled_wait i < max_wait_secs) (seq 0 n)
    /\ submissions_of new = []
    /\ (exists rest, new = EvInspect (state (status execute_response)) :: rest)
    /\ (forall b, r = Returns b ->
          exists pre s, new = pre ++ [EvInspect s] /\ b = StatementState_eqb s SUCCEEDED).
Proof.
  destruct (poll_loop_schedule (poll_fuel max_wait_secs) 0 (statement_id execute_response)
              max_wait_secs (status execute_response) st)
    as (st1 & r1 & new & n & Hrun & Hrep & Htr & Hsl & Hall & Hsub & Hfirst).
  { unfold poll_fuel. cbn [scheduled_wait]. lia. }
  change (scheduled_wait 0) with 0 in Hrun, Hfirst.
  change (scheduled_backoff 0) with 1 in Hrun.
  unfold _check_analyze_table_statement_status, bind at 1. rewrite Hrun.
  destruct r1 as [final|e].
  - unfold bind, inspect, ret, log.
    eexists _, _, (new ++ [EvInspect (state final)]), n.
    split; [reflexivity|]. cbn [report trace].
    split; [assumption|]. split; [rewrite Htr, <- app_assoc; reflexivity|].
    split; [rewrite sleeps_of_app, Hsl; cbn; apply app_nil_r|].
    split; [assumption|].
    split; [rewrite submissions_of_app, Hsub; reflexivity|]. split.
    + destruct (0 <? max_wait_secs).
      * destruct Hfirst as [rest ->]. eexists; reflexivity.
      * destruct Hfirst as [-> Hr]. injection Hr as ->.
        rewrite <- (app_nil_r (trace st)) in Htr at 1.
        apply app_inv_head in Htr. subst new. eexists; reflexivity.
    + intros b [= <-]. eexists _, _; split; reflexivity.
  - exists st1, (Raises e), new, n.
    repeat split; try assumption.
    + destruct (0 <? max_wait_secs); [assumption|].
      destruct Hfirst as [_ [=]].
    + intros b [=].
Qed.

(** The guard of the loop admits at most [ceil(log2(max_wait_secs + 1))]
    iterations. *)
Lemma poll_iterations_bound (n : nat) max_wait_secs :
  Forall (fun i => scheduled_wait i < max_wait_secs) (seq 0 n) ->
  Z.of_nat n <= Z.log2_up (max_wait_secs + 1).
Proof.
  intros Hall. destruct n as [|n].
  { apply Z.log2_up_nonneg. }
  rewrite Forall_forall in Hall.
  assert (Hn : scheduled_wait n < max_wait_secs).
  { apply Hall. apply elem_of_seq. lia. }
  rewrite scheduled_wait_closed in Hn. unfold scheduled_backoff in Hn.
  pose proof (scheduled_backoff_pos n) as Hpos. unfold scheduled_backoff in Hpos.
  destruct (Z.log2_up_spec (max_wait_secs + 1)) as [_ Hup]; [lia|].
  assert (Hlt : 2 ^ Z.of_nat n < 2 ^ Z.log2_up (max_wait_secs + 1)) by lia.
  apply Z.pow_lt_mono_r_iff in Hlt; [lia | lia | apply Z.log2_up_nonneg].
Qed.

(** C4: for every max_wait_secs >= 0 the poller comes to an end; its i-th
    sleep (from 0) lasts min(backoff_i, max_wait_secs - waited_i), where the
    backoffs are 1, 2, 4, 8, ... and waited_i is the sum of the backoffs
    scheduled before (not of the time slept), and it is never shorter than
    one time unit; and it goes through the loop at most
    ceil(log2(max_wait_secs + 1)) + 1 times (one sleep per iteration). *)
Theorem poller_backoff_sequence execute_response max_wait_secs (st : State) :
  0 <= max_wait_secs ->
  exists st' r new,
    _check_analyze_table_statement_status execute_response max_wait_secs st = Some (st', r)
    /\ trace st' = trace st ++ new
    /\ (forall (i : nat) d,
          sleeps_of new !! i = Some d ->
          d = Z.min (scheduled_backoff i) (max_wait_secs - scheduled_wait i) /\ 1 <= d)
    /\ Z.of_nat (length (sleeps_of new)) <= Z.log2_up (max_wait_secs + 1) + 1.
Proof.
  intros _.
  destruct (check_status_run execute_response max_wait_secs st)
    as (st' & r & new & n & Hrun & _ & Htr & Hsl & Hall & _ & _).
  exists st', r, new. split; [assumption|]. split; [assumption|]. split.
  - intros i d Hi. rewrite Hsl, list_lookup_fmap in Hi.
    destruct (seq 0 n !! i) as [j|] eqn:Hj; [|discriminate].
    pose proof Hj as Hj'. apply lookup_seq in Hj' as [-> _].
    change (Some (Z.min (scheduled_backoff i) (max_wait_secs - scheduled_wait i)) = Some d)
      in Hi.
    injection Hi as <-. split; [reflexivity|].
    rewrite Forall_forall in Hall.
    assert (scheduled_wait i < max_wait_secs)
      by (apply Hall; apply (list_elem_of_lookup_2 _ i); exact Hj).
    pose proof (scheduled_backoff_pos i). lia.
  - rewrite Hsl, length_map, length_seq.
    pose proof (poll_iterations_bound n max_wait_secs Hall). lia.
Qed.

(** C6: for every max_wait_secs >= 0 the poller reads a status at least
    once: the first thing it does, before any sleep, is to compare the state
    it was handed with SUCCEEDED; when it returns, its result is the outcome
    of the last such comparison; with max_wait_secs = 0 it does exactly that
    one comparison and nothing else. *)
Theorem poller_checks_status_at_least_once execute_response max_wait_secs (st : State) :
  0 <= max_wait_secs ->
  (exists st' r rest,
     _check_analyze_table_statement_status execute_response max_wait_secs st = Some (st', r)
     /\ trace st' = trace st ++ EvInspect (state (status execute_response)) :: rest
     /\ (forall b, r = Returns b ->
           exists s, last (inspections_of (EvInspect (state (status execute_response)) :: rest))
                       = Some s
                     /\ b = StatementState_eqb s SUCCEEDED))
  /\ _check_analyze_table_statement_status execute_response 0 st =
       Some (log (EvInspect (state (status execute_response))) st,
             Returns (StatementState_eqb (state (status execute_response)) SUCCEEDED)).
Proof.
  intros _. split; [|reflexivity].
  destruct (check_status_run execute_response max_wait_secs st)
    as (st' & r & new & n & Hrun & _ & Htr & _ & _ & _ & [rest Hfirst] & Hlast).
  exists st', r, rest. subst new. split; [assumption|]. split; [assumption|].
  intros b Hb. destruct (Hlast b Hb) as (pre & s & Hnew & ->).
  exists s. split; [|reflexivity].
  rewrite Hnew, inspections_of_app. cbn. apply last_snoc.
Qed.

(** *** The profile extractor *)

Lemma only_int_casts_refl (st : State) : only_int_casts 0 st st.
Proof. unfold only_int_casts. repeat split; lia. Qed.

Lemma only_int_casts_trans n m (st1 st2 st3 : State) :
  only_int_casts n st1 st2 -> only_int_casts m st2 st3 -> only_int_casts (n + m) st1 st3.
Proof.
  unfold only_int_casts.
  intros (H1 & H2 & H3 & H4 & H5 & H6) (G1 & G2 & G3 & G4 & G5 & G6).
  repeat split; try congruence. lia.
Qed.

Lemma failed_casts_app table_info keys1 keys2 :
  failed_casts table_info (keys1 ++ keys2)
  = failed_casts table_info keys1 + failed_casts table_info keys2.
Proof. unfold failed_casts. rewrite List.filter_app, length_app. lia. Qed.

Lemma failed_casts_one table_info key :
  failed_casts table_info [key] = if unparseable table_info key then 1 else 0.
Proof. unfold failed_casts. cbn. destruct (unparseable table_info key); reflexivity. Qed.

(** One run of [_get_int]: it never raises, yields the parsed value when
    there is one, and counts a failure exactly when a value is present that
    does not parse. *)
Lemma get_int_run table_info field (st : State) :
  _get_int table_info field st =
    Some (if unparseable table_info field then with_report count_failed_int_cast st else st,
          Returns (properties table_info !! field ≫= parse_int)).
Proof.
  unfold _get_int, unparseable.
  destruct (properties table_info !! field) as [value|]; [|reflexivity].
  cbn. destruct (parse_int value); reflexivity.
Qed.

Lemma get_int_frame table_info field (st : State) :
  exists st', _get_int table_info field st = Some (st', Returns (parsed table_info field))
    /\ only_int_casts (failed_casts table_info [field]) st st'.
Proof.
  rewrite get_int_run, failed_casts_one.
  destruct (unparseable table_info field); eexists; (split; [reflexivity|]).
  - unfold only_int_casts. cbn. repeat split.
  - apply only_int_casts_refl.
Qed.

Lemma create_column_profile_run column table_info (st : State) :
  exists st',
    _create_column_profile column table_info st
    = Some (st', Returns (column_profile_of table_info column))
    /\ only_int_casts (failed_casts table_info [col_stats_key column ".nullCount";
                                                 col_stats_key column ".distinctCount"]) st st'.
Proof.
  unfold _create_column_profile.
  destruct (get_int_frame table_info (col_stats_key column ".nullCount") st)
    as (st1 & Hrun1 & Hfr1).
  destruct (get_int_frame table_info (col_stats_key column ".distinctCount") st1)
    as (st2 & Hrun2 & Hfr2).
  unfold bind at 1. rewrite Hrun1. unfold bind at 1. rewrite Hrun2.
  eexists. split; [reflexivity|].
  change [col_stats_key column ".nullCount"; col_stats_key column ".distinctCount"]
    with ([col_stats_key column ".nullCount"] ++ [col_stats_key column ".distinctCount"]).
  rewrite failed_casts_app. eapply only_int_casts_trans; eassumption.
Qed.

Lemma column_profiles_run columns_names table_info : forall st : State,
  exists st',
    column_profiles_of columns_names table_info st
    = Some (st', Returns (map (column_profile_of table_info) columns_names))
    /\ only_int_casts
         (failed_casts table_info
            (flat_map (fun column => [col_stats_key column ".nullCount";
                                      col_stats_key column ".distinctCount"]) columns_names))
         st st'.
Proof.
  induction columns_names as [|column rest IH]; intros st.
  - exists st. split; [reflexivity | apply only_int_casts_refl].
  - destruct (create_column_profile_run column table_info st) as (st1 & Hrun1 & Hfr1).
    destruct (IH st1) as (st2 & Hrun2 & Hfr2).
    cbn [column_profiles_of]. unfold bind at 1. rewrite Hrun1. unfold bind at 1. rewrite Hrun2.
    eexists. split; [reflexivity|].
    cbn [flat_map]. rewrite failed_casts_app. eapply only_int_casts_trans; eassumption.
Qed.

(** The extractor never raises: it yields the profile the metadata
    determines, and counts each read of a numeric key that holds a
    non-integer once. *)
Lemma create_table_profile_run table_info include_columns (st : State) :
  exists st',
    _create_table_profile table_info include_columns st
    = Some (st', Returns (table_profile_of table_info include_columns))
    /\ only_int_casts (failed_casts table_info (numeric_keys table_info include_columns)) st st'.
Proof.
  unfold _create_table_profile, numeric_keys, table_profile_of.
  destruct (get_int_frame table_info num_rows_key st) as (st1 & Hrun1 & Hfr1).
  destruct (get_int_frame table_info total_size_key st1) as (st2 & Hrun2 & Hfr2).
  unfold bind at 1. rewrite Hrun1. unfold bind at 1. rewrite Hrun2.
  change [num_rows_key; total_size_key] with ([num_rows_key] ++ [total_size_key]).
  rewrite !failed_casts_app.
  pose proof (only_int_casts_trans _ _ _ _ _ Hfr1 Hfr2) as Hfr12.
  destruct include_columns.
  - destruct (column_profiles_run (map ci_name (columns table_info)) table_info st2)
      as (st3 & Hrun3 & Hfr3).
    unfold bind at 1. rewrite Hrun3.
    eexists. split; [unfold ret; rewrite length_map; reflexivity|].
    eapply only_int_casts_trans; eassumption.
  - eexists. split; [unfold bind, ret; rewrite length_map; reflexivity|].
    replace (failed_casts table_info []) with 0 by reflexivity.
    rewrite Z.add_0_r. assumption.
Qed.

(** C8: when a numeric statistics key holds a value that is not an integer,
    [_get_int] returns absence without raising and adds exactly one to the
    parse-failure counter, touching nothing else; the extractor as a whole
    never raises either, leaves that field absent in the profile it returns,
    and counts one failure per such read. *)
Theorem unparseable_value_is_absent_and_counted table_info field value (st : State) :
  properties table_info !! field = Some value ->
  parse_int value = None ->
  _get_int table_info field st = Some (with_report count_failed_int_cast st, Returns None)
  /\ only_int_casts 1 st (with_report count_failed_int_cast st)
  /\ parsed table_info field = None
  /\ forall include_columns, exists st',
       _create_table_profile table_info include_columns st
       = Some (st', Returns (table_profile_of table_info include_columns))
       /\ only_int_casts (failed_casts table_info (numeric_keys table_info include_columns))
            st st'.
Proof.
  intros Hvalue Hparse.
  assert (Hun : unparseable table_info field = true).
  { unfold unparseable. rewrite Hvalue, Hparse. reflexivity. }
  assert (Hnone : parsed table_info field = None).
  { unfold parsed. rewrite Hvalue. exact Hparse. }
  split. { rewrite get_int_run, Hun. unfold parsed in Hnone. rewrite Hnone. reflexivity. }
  split. { unfold only_int_casts. cbn. repeat split. }
  split; [assumption|].
  intros include_columns. apply create_table_profile_run.
Qed.

(** C10: when a numeric statistics key is missing from the property bag,
    [_get_int] returns absence and changes nothing, the parse-failure counter
    included; and whenever a run of [_get_int] does change that counter, the
    key held a value that is not an integer. *)
Theorem absent_key_is_absent_and_not_counted table_info field (st : State) :
  properties table_info !! field = None ->
  _get_int table_info field st = Some (st, Returns None)
  /\ forall table_info' field' st' r,
       _get_int table_info' field' st = Some (st', r) ->
       num_profile_failed_int_casts (report st') <> num_profile_failed_int_casts (report st) ->
       exists value, properties table_info' !! field' = Some value /\ parse_int value = None.
Proof.
  intros Habsent. split.
  - rewrite get_int_run. unfold unparseable. rewrite Habsent. reflexivity.
  - intros ti f st' r Hrun Hchanged. rewrite get_int_run in Hrun.
    unfold unparseable in Hrun.
    destruct (properties ti !! f) as [value|]; [|congruence].
    destruct (parse_int value) eqn:Hparse; [congruence|].
    exists value. split; [reflexivity | assumption].
Qed.

(** *** The orchestrator *)

Lemma keeps_samples_refl r : keeps_samples r r.
Proof. intros key sample H. exact H. Qed.

Lemma keeps_samples_trans r1 r2 r3 :
  keeps_samples r1 r2 -> keeps_samples r2 r3 -> keeps_samples r1 r3.
Proof. intros H12 H23 key sample H. apply H23, H12, H. Qed.

Lemma keeps_samples_same r r' :
  profile_table_errors r' = profile_table_errors r -> keeps_samples r r'.
Proof. intros Heq key sample H. rewrite Heq. exact H. Qed.

Lemma LossyList_append_keeps {A} cap (l : list A) x y : y ∈ l -> y ∈ LossyList_append cap l x.
Proof.
  intros Hy. unfold LossyList_append.
  destruct (length l <? cap)%nat; [apply elem_of_app; left|]; exact Hy.
Qed.

Lemma append_error_keeps cap key sample r : keeps_samples r (append_error cap key sample r).
Proof.
  intros key' sample' H. unfold append_error. cbn.
  destruct (decide (key = key')) as [<-|Hne].
  - rewrite lookup_insert_eq. cbn. apply LossyList_append_keeps, H.
  - rewrite lookup_insert_ne by exact Hne. exact H.
Qed.

(** Filing an error stores, under its key, the samples that were there
    plus, capacity permitting, the new one. *)
Lemma append_error_lookup cap key sample r :
  profile_table_errors (append_error cap key sample r) !! key
  = Some (LossyList_append cap (default [] (profile_table_errors r !! key)) sample).
Proof. unfold append_error. cbn. apply lookup_insert_eq. Qed.

(** One run of [_analyze_table]: one submission, then the status test. *)
Lemma analyze_table_run ref include_columns (st : State) :
  exists w res,
    execute_statement (analyze_statement ref include_columns) (catalog ref) "0s" warehouse_id
      (world st) = (w, res)
    /\ _analyze_table ref include_columns st =
         Some ({| world := w; report := report st;
                  trace := trace st ++ [EvExecute (analyze_statement ref include_columns)
                                          (catalog ref)] |},
               match res with
               | Returns response =>
                   if non_terminal (state (status response))
                      || StatementState_eqb (state (status response)) SUCCEEDED
                   then Returns response
                   else Raises {| de_message := se_message (error (status response));
                                  de_error_code := se_error_code (error (status response));
                                  de_status := StatementState_value (state (status response));
                                  de_context := "analyze-table" |}
               | Raises e => Raises e
               end).
Proof.
  unfold _analyze_table, bind at 1, remote.
  destruct (execute_statement _ _ _ _ (world st)) as [w [response|e]];
    eexists _, _; (split; [reflexivity|]); [|reflexivity].
  unfold bind. rewrite raise_if_error_run.
  destruct (non_terminal _ || StatementState_eqb _ SUCCEEDED); reflexivity.
Qed.

(** One run of [_get_table_profile]: one metadata fetch, then the
    extractor; of the report only the parse-failure counter can change. *)
Lemma get_table_profile_run ref include_columns (st : State) :
  exists st' r,
    _get_table_profile ref include_columns st = Some (st', r)
    /\ trace st' = trace st ++ [EvGetTable (qualified_table_name ref)]
    /\ profile_table_timeouts (report st') = profile_table_timeouts (report st)
    /\ profile_table_errors (report st') = profile_table_errors (report st)
    /\ num_profile_failed_unsupported_column_type (report st')
       = num_profile_failed_unsupported_column_type (report st).
Proof.
  unfold _get_table_profile, bind, remote.
  destruct (tables_get _ (world st)) as [w [table_info|e]].
  - edestruct (create_table_profile_run table_info include_columns)
      as (st' & Hrun & Hfr).
    rewrite Hrun. destruct Hfr as (_ & Htr & Hto & Her & Hun & _).
    eexists _, _. split; [reflexivity|]. repeat split; assumption.
  - eexists _, _. split; [reflexivity|]. repeat split.
Qed.

(** One run of the [try] block.  It always comes to an end; it files no
    error and does not touch the unsupported-column counter; it submits one
    statement when [call_analyze] and none otherwise; and when it returns a
    profile, the last thing it did was the metadata fetch, right after the
    poller compared a state equal to SUCCEEDED if [call_analyze]. *)
Lemma get_table_stats_try_run ref max_wait_secs call_analyze include_columns (st : State) :
  exists st' r new,
    get_table_stats_try ref max_wait_secs call_analyze include_columns st = Some (st', r)
    /\ trace st' = trace st ++ new
    /\ profile_table_errors (report st') = profile_table_errors (report st)
    /\ num_profile_failed_unsupported_column_type (report st')
       = num_profile_failed_unsupported_column_type (report st)
    /\ submissions_of new
       = (if call_analyze then [analyze_statement ref include_columns] else [])
    /\ (forall p, r = Returns (Some p) ->
          if call_analyze
          then exists pre,
                 new = pre ++ [EvInspect SUCCEEDED; EvGetTable (qualified_table_name ref)]
          else new = [EvGetTable (qualified_table_name ref)]).
Proof.
  unfold get_table_stats_try. destruct call_analyze.
  - destruct (analyze_table_run ref include_columns st) as (w & res & _ & Hrun).
    unfold bind at 1. rewrite Hrun. clear Hrun.
    set (ev := EvExecute (analyze_statement ref include_columns) (catalog ref)).
    set (st1 := {| world := w; report := report st; trace := trace st ++ [ev] |}).
    assert (Hstop : forall e,
      exists st' r new,
        Some (st1, @Raises (option TableProfile) e) = Some (st', r)
        /\ trace st' = trace st ++ new
        /\ profile_table_errors (report st') = profile_table_errors (report st)
        /\ num_profile_failed_unsupported_column_type (report st')
           = num_profile_failed_unsupported_column_type (report st)
        /\ submissions_of new = [analyze_statement ref include_columns]
        /\ (forall p, r = Returns (Some p) ->
              exists pre, new = pre ++ [EvInspect SUCCEEDED;
                                        EvGetTable (qualified_table_name ref)])).
    { intros e. exists st1, (Raises e), [ev]. repeat split. intros p [=]. }
    destruct res as [response|e]; [|apply Hstop].
    destruct (non_terminal _ || StatementState_eqb _ SUCCEEDED); [|apply Hstop].
    clear Hstop.
    destruct (check_status_run response max_wait_secs st1)
      as (st2 & r2 & new2 & n & Hrun & Hrep & Htr & _ & _ & Hsub & _ & Hlast).
    unfold bind at 1. rewrite Hrun. clear Hrun.
    destruct r2 as [success|e].
    2:{ exists st2, (Raises e), (ev :: new2). split; [reflexivity|].
        rewrite Hrep, Htr. cbn. rewrite <- app_assoc, Hsub.
        repeat split. intros p [=]. }
    destruct (Hlast success eq_refl) as (pre & s & -> & ->).
    destruct (StatementState_eqb s SUCCEEDED) eqn:Hs; cbn [negb].
    + destruct (get_table_profile_run ref include_columns st2)
        as (st3 & r3 & Hrun & Htr3 & _ & Her & Hun).
      unfold bind at 1. rewrite Hrun. clear Hrun.
      assert (s = SUCCEEDED) as -> by (destruct s; cbn in Hs; congruence).
      exists st3, (match r3 with Returns p => Returns (Some p) | Raises e => Raises e end),
        (ev :: (pre ++ [EvInspect SUCCEEDED])
                         ++ [EvGetTable (qualified_table_name ref)]).
      split; [destruct r3; reflexivity|].
      split; [rewrite Htr3, Htr; cbn; rewrite <- !app_assoc; reflexivity|].
      rewrite Her, Hun, Hrep. repeat split.
      * cbn. rewrite submissions_of_app, Hsub. reflexivity.
      * intros p _. exists (ev :: pre). cbn. rewrite <- !app_assoc. reflexivity.
    + exists (with_report (append_timeout max_elements (ref_str ref)) st2), (Returns None),
        (ev :: pre ++ [EvInspect s]).
      split; [reflexivity|]. cbn.
      rewrite Htr, Hrep. cbn. rewrite <- app_assoc, Hsub.
      repeat split. intros p [=].
  - destruct (get_table_profile_run ref include_columns st)
      as (st3 & r3 & Hrun & Htr3 & _ & Her & Hun).
    unfold bind at 1. rewrite Hrun.
    exists st3, (match r3 with Returns p => Returns (Some p) | Raises e => Raises e end),
      [EvGetTable (qualified_table_name ref)].
    split; [destruct r3; reflexivity|]. repeat split; assumption.
Qed.

(** [get_table_stats] unfolded once: the [try] block, and on an error the
    [except] block, which files the error and then either calls
    [get_table_stats] again without columns or returns absence. *)
Lemma get_table_stats_unfold depth ref max_wait_secs call_analyze include_columns (st : State) :
  get_table_stats (S depth) ref max_wait_secs call_analyze include_columns st =
    match get_table_stats_try ref max_wait_secs call_analyze include_columns st with
    | None => None
    | Some (st1, Returns r) => Some (st1, Returns r)
    | Some (st1, Raises e) =>
        if call_analyze && include_columns
           && py_in unsupported_column_token (str_of_error e)
        then get_table_stats depth ref max_wait_secs call_analyze false
               (counted (recorded ref e st1))
        else Some (recorded ref e st1, Returns None)
    end.
Proof.
  cbn [get_table_stats]. unfold try_except.
  destruct (get_table_stats_try _ _ _ _ st) as [[st1 [r|e]]|]; try reflexivity.
  unfold bind at 1, record_error, modify_report. fold (recorded ref e st1).
  unfold bind at 1, retry_guard, _should_retry_unsupported_column.
  destruct call_analyze, include_columns; try reflexivity. cbn [andb].
  destruct (py_in _ _); reflexivity.
Qed.

Lemma events_of_run {A} (m : M A) (st st' : State) r new :
  m st = Some (st', r) -> trace st' = trace st ++ new -> events_of m st = new.
Proof.
  intros Hrun Htr. unfold events_of. rewrite Hrun, Htr. apply drop_app_length.
Qed.

(** A call that cannot retry (one of the two flags is off): it always
    returns, never nests another call, and leaves the unsupported-column
    counter alone. *)
Lemma get_table_stats_plain_run depth ref max_wait_secs call_analyze include_columns
    (st : State) :
  call_analyze && include_columns = false ->
  exists st' r new,
    get_table_stats (S depth) ref max_wait_secs call_analyze include_columns st
    = Some (st', Returns r)
    /\ get_table_stats 1 ref max_wait_secs call_analyze include_columns st
       = Some (st', Returns r)
    /\ trace st' = trace st ++ new
    /\ keeps_samples (report st) (report st')
    /\ num_profile_failed_unsupported_column_type (report st')
       = num_profile_failed_unsupported_column_type (report st)
    /\ submissions_of new
       = (if call_analyze then [analyze_statement ref include_columns] else [])
    /\ (forall p, r = Some p ->
          if call_analyze
          then exists pre,
                 new = pre ++ [EvInspect SUCCEEDED; EvGetTable (qualified_table_name ref)]
          else new = [EvGetTable (qualified_table_name ref)]).
Proof.
  intros Hflags. rewrite !get_table_stats_unfold, Hflags. cbn [andb].
  destruct (get_table_stats_try_run ref max_wait_secs call_analyze include_columns st)
    as (st1 & r1 & new & Hrun & Htr & Her & Hun & Hsub & Hprof).
  rewrite Hrun. destruct r1 as [r|e].
  - exists st1, r, new. repeat split; try assumption.
    + apply keeps_samples_same, Her.
    + intros p ->. apply (Hprof p eq_refl).
  - exists (recorded ref e st1), None, new. repeat split; try assumption.
    + unfold recorded. cbn.
      eapply keeps_samples_trans; [apply keeps_samples_same, Her | apply append_error_keeps].
    + intros p [=].
Qed.

(** Any call with room for one nested call: it always returns. *)
Lemma get_table_stats_run depth ref max_wait_secs call_analyze include_columns (st : State) :
  exists st' r new,
    get_table_stats (S (S depth)) ref max_wait_secs call_analyze include_columns st
    = Some (st', Returns r)
    /\ trace st' = trace st ++ new
    /\ keeps_samples (report st) (report st')
    /\ (forall p, r = Some p ->
          if call_analyze
          then exists pre,
                 new = pre ++ [EvInspect SUCCEEDED; EvGetTable (qualified_table_name ref)]
          else new = [EvGetTable (qualified_table_name ref)]).
Proof.
  destruct (call_analyze && include_columns) eqn:Hflags.
  2:{ destruct (get_table_stats_plain_run (S depth) ref max_wait_secs call_analyze
                  include_columns st Hflags)
        as (st' & r & new & Hrun & _ & Htr & Hkeep & _ & _ & Hprof).
      exists st', r, new. repeat split; assumption. }
  rewrite get_table_stats_unfold, Hflags. cbn [andb].
  destruct (get_table_stats_try_run ref max_wait_secs call_analyze include_columns st)
    as (st1 & r1 & new1 & Hrun & Htr & Her & _ & _ & Hprof).
  rewrite Hrun. destruct r1 as [r|e].
  { exists st1, r, new1. repeat split; try assumption.
    - apply keeps_samples_same, Her.
    - intros p ->. apply (Hprof p eq_refl). }
  assert (Hkeep1 : keeps_samples (report st) (report (recorded ref e st1))).
  { unfold recorded. cbn.
    eapply keeps_samples_trans; [apply keeps_samples_same, Her | apply append_error_keeps]. }
  destruct (py_in _ _).
  2:{ exists (recorded ref e st1), None, new1. repeat split; try assumption. intros p [=]. }
  apply andb_true_iff in Hflags as [-> ->].
  destruct (get_table_stats_plain_run depth ref max_wait_secs true false
              (counted (recorded ref e st1)) eq_refl)
    as (st' & r & new2 & Hrun2 & _ & Htr2 & Hkeep2 & _ & _ & Hprof2).
  exists st', r, (new1 ++ new2). split; [assumption|].
  split; [rewrite Htr2; cbn; rewrite Htr, app_assoc; reflexivity|].
  split; [eapply keeps_samples_trans; [exact Hkeep1 | exact Hkeep2]|].
  intros p Hp. destruct (Hprof2 p Hp) as [pre ->].
  exists (new1 ++ pre). rewrite app_assoc. reflexivity.
Qed.

(** At no nesting budget does a [DatabricksError] leave [get_table_stats]. *)
Lemma get_table_stats_no_raise depth : forall ref max_wait_secs call_analyze include_columns
    (st st' : State) res,
  get_table_stats depth ref max_wait_secs call_analyze include_columns st = Some (st', res) ->
  exists r, res = Returns r.
Proof.
  induction depth as [|depth IH]; intros ref mw ca ic st st' res Hrun; [discriminate|].
  rewrite get_table_stats_unfold in Hrun.
  destruct (get_table_stats_try ref mw ca ic st) as [[st1 [r|e]]|]; [| |discriminate].
  - injection Hrun as <- <-. eexists; reflexivity.
  - destruct (ca && ic && py_in _ _).
    + eapply IH, Hrun.
    + injection Hrun as <- <-. eexists; reflexivity.
Qed.

(** C1: every call of [get_table_stats] returns, and when it returns a
    profile then either [call_analyze] is false and no statement was
    submitted, or the last thing before the metadata fetch was the poller
    comparing a state equal to SUCCEEDED; in every other case the result is
    absence. *)
Theorem profile_only_after_success depth ref max_wait_secs call_analyze include_columns
    (st : State) :
  exists st' r new,
    get_table_stats (S (S depth)) ref max_wait_secs call_analyze include_columns st
    = Some (st', Returns r)
    /\ trace st' = trace st ++ new
    /\ forall p, r = Some p ->
         (call_analyze = false /\ submissions_of new = [])
         \/ (call_analyze = true
             /\ exists pre,
                  new = pre ++ [EvInspect SUCCEEDED; EvGetTable (qualified_table_name ref)]).
Proof.
  destruct (get_table_stats_run depth ref max_wait_secs call_analyze include_columns st)
    as (st' & r & new & Hrun & Htr & _ & Hprof).
  exists st', r, new. split; [assumption|]. split; [assumption|].
  intros p Hp. specialize (Hprof p Hp). destruct call_analyze.
  - right. split; [reflexivity | assumption].
  - left. rewrite Hprof. split; reflexivity.
Qed.

(** C2: [get_table_stats] never lets a [DatabricksError] out: it always
    returns a value, and whatever the nesting budget no run of it ends in a
    raise.  An error raised inside the [try] block is filed in the report
    under its grouping key, and the call then yields absence or, when the
    retry guard holds, what the one call without columns yields; the filed
    sample is still in the report at the end. *)
Theorem get_table_stats_never_raises depth ref max_wait_secs call_analyze include_columns
    (st : State) :
  (exists st' r,
     get_table_stats (S (S depth)) ref max_wait_secs call_analyze include_columns st
     = Some (st', Returns r))
  /\ (forall budget st' res,
        get_table_stats budget ref max_wait_secs call_analyze include_columns st
        = Some (st', res) ->
        exists r, res = Returns r)
  /\ (forall st1 e,
        get_table_stats_try ref max_wait_secs call_analyze include_columns st
        = Some (st1, Raises e) ->
        profile_table_errors (report (recorded ref e st1)) !! base_msg_of (str_of_error e)
        = Some (LossyList_append max_elements
                  (default [] (profile_table_errors (report st1)
                                 !! base_msg_of (str_of_error e)))
                  (ref_str ref, str_of_error e))
        /\ get_table_stats (S (S depth)) ref max_wait_secs call_analyze include_columns st
           = (if call_analyze && include_columns
                 && py_in unsupported_column_token (str_of_error e)
              then get_table_stats 1 ref max_wait_secs call_analyze false
                     (counted (recorded ref e st1))
              else Some (recorded ref e st1, Returns None))
        /\ exists st' r,
             get_table_stats (S (S depth)) ref max_wait_secs call_analyze include_columns st
             = Some (st', Returns r)
             /\ keeps_samples (report (recorded ref e st1)) (report st')).
Proof.
  split; [|split].
  - destruct (get_table_stats_run depth ref max_wait_secs call_analyze include_columns st)
      as (st' & r & new & Hrun & _).
    exists st', r. exact Hrun.
  - intros budget st' res. apply get_table_stats_no_raise.
  - intros st1 e Htry.
    split; [apply append_error_lookup|].
    rewrite get_table_stats_unfold, Htry.
    destruct (call_analyze && include_columns && py_in _ _) eqn:Hguard.
    + destruct (get_table_stats_plain_run depth ref max_wait_secs call_analyze false
                  (counted (recorded ref e st1)))
        as (st' & r & new & Hrun & Hrun1 & _ & Hkeep & _).
      { apply andb_false_r. }
      split; [rewrite Hrun, Hrun1; reflexivity|].
      exists st', r. split; [assumption|]. exact Hkeep.
    + split; [reflexivity|].
      exists (recorded ref e st1), None. split; [reflexivity | apply keeps_samples_refl].
Qed.

(** C3: when the [try] block of a call with [call_analyze] and
    [include_columns] both true raises an error whose message contains the
    unsupported-column token, the call is made once more with
    [include_columns] false, and that second call completes with no budget
    for a further nested call: two statements are submitted in all, the
    first for all columns and the second not, and the unsupported-column
    counter goes up by exactly one; when the second call fails too, whatever
    its error, it files the error and returns absence. *)
Theorem unsupported_column_retries_once depth ref max_wait_secs (st st1 : State) e :
  get_table_stats_try ref max_wait_secs true true st = Some (st1, Raises e) ->
  py_in unsupported_column_token (str_of_error e) = true ->
  get_table_stats (S (S depth)) ref max_wait_secs true true st
  = get_table_stats 1 ref max_wait_secs true false (counted (recorded ref e st1))
  /\ exists st' r new,
       get_table_stats 1 ref max_wait_secs true false (counted (recorded ref e st1))
       = Some (st', Returns r)
       /\ trace st' = trace st ++ new
       /\ submissions_of new = [analyze_statement ref true; analyze_statement ref false]
       /\ num_profile_failed_unsupported_column_type (report st')
          = num_profile_failed_unsupported_column_type (report st) + 1
       /\ forall st3 e2,
            get_table_stats_try ref max_wait_secs true false (counted (recorded ref e st1))
            = Some (st3, Raises e2) ->
            st' = recorded ref e2 st3 /\ r = None.
Proof.
  intros Htry Htoken.
  destruct (get_table_stats_try_run ref max_wait_secs true true st)
    as (st1' & r1 & new1 & Hrun1 & Htr1 & _ & Hun1 & Hsub1 & _).
  rewrite Htry in Hrun1. injection Hrun1 as <- <-.
  destruct (get_table_stats_plain_run depth ref max_wait_secs true false
              (counted (recorded ref e st1)) eq_refl)
    as (st' & r & new2 & Hrun & Hrun' & Htr2 & _ & Hun2 & Hsub2 & _).
  split.
  - rewrite get_table_stats_unfold, Htry, Htoken. cbn [andb]. rewrite Hrun, Hrun'. reflexivity.
  - exists st', r, (new1 ++ new2). split; [assumption|].
    split; [rewrite Htr2; cbn; rewrite Htr1, app_assoc; reflexivity|].
    split; [rewrite submissions_of_app, Hsub1, Hsub2; reflexivity|].
    split; [rewrite Hun2; cbn; rewrite Hun1; reflexivity|].
    intros st3 e2 Htry2. rewrite get_table_stats_unfold, Htry2 in Hrun'.
    cbn [andb] in Hrun'. injection Hrun' as <- <-. split; reflexivity.
Qed.

(** C9: when an error whose message contains the unsupported-column token
    is caught while [call_analyze] or [include_columns] is false, the call
    files the error and returns absence, and the unsupported-column counter
    is what it was before the call: the retry guard answers false on the
    flags alone and leaves the state as it is, whereas the classifier, had it
    been called there, would have counted the error. *)
Theorem unsupported_counter_untouched_without_both_flags depth ref max_wait_secs
    call_analyze include_columns (st st1 : State) e :
  call_analyze = false \/ include_columns = false ->
  get_table_stats_try ref max_wait_secs call_analyze include_columns st
  = Some (st1, Raises e) ->
  py_in unsupported_column_token (str_of_error e) = true ->
  get_table_stats (S depth) ref max_wait_secs call_analyze include_columns st
  = Some (recorded ref e st1, Returns None)
  /\ retry_guard ref e call_analyze include_columns (recorded ref e st1)
     = Some (recorded ref e st1, Returns false)
  /\ _should_retry_unsupported_column ref e (recorded ref e st1)
     = Some (counted (recorded ref e st1), Returns true)
  /\ num_profile_failed_unsupported_column_type (report (recorded ref e st1))
     = num_profile_failed_unsupported_column_type (report st).
Proof.
  intros Hflags Htry Htoken.
  assert (Hoff : call_analyze && include_columns = false).
  { destruct Hflags as [-> | ->]; [reflexivity | apply andb_false_r]. }
  split; [|split; [|split]].
  - rewrite get_table_stats_unfold, Htry, Hoff. reflexivity.
  - unfold retry_guard. destruct call_analyze, include_columns; try reflexivity.
    discriminate Hoff.
  - unfold _should_retry_unsupported_column. rewrite Htoken. reflexivity.
  - destruct (get_table_stats_try_run ref max_wait_secs call_analyze include_columns st)
      as (st1' & r1 & new1 & Hrun1 & _ & _ & Hun1 & _).
    rewrite Htry in Hrun1. injection Hrun1 as <- <-. cbn. exact Hun1.
Qed.

(** *** The grouping key *)

Lemma py_find_lacks c s : lacks c s -> py_find c s = -1.
Proof.
  unfold lacks. induction s as [|a s IH]; intros Hno; [reflexivity|].
  cbn [py_find]. destruct (Ascii.eqb a c) eqn:Hac.
  - apply Ascii.eqb_eq in Hac. exfalso. apply Hno. left. exact Hac.
  - rewrite IH; [reflexivity|]. intros Hin. apply Hno. right. exact Hin.
Qed.

Lemma append_nil_l s : "" +:+ s = s.
Proof. reflexivity. Qed.

Lemma append_cons a s t : String a s +:+ t = String a (s +:+ t).
Proof. reflexivity. Qed.

Lemma py_find_first c pre post :
  lacks c pre -> py_find c (pre +:+ String c post) = py_len pre.
Proof.
  unfold lacks, py_len. induction pre as [|a pre IH]; intros Hno.
  - rewrite append_nil_l. cbn [py_find String.length]. rewrite Ascii.eqb_refl. reflexivity.
  - rewrite append_cons. cbn [py_find String.length]. destruct (Ascii.eqb a c) eqn:Hac.
    + apply Ascii.eqb_eq in Hac. exfalso. apply Hno. left. exact Hac.
    + rewrite IH by (intros Hin; apply Hno; right; exact Hin).
      destruct (Z.of_nat (String.length pre) <? 0) eqn:Hneg; [apply Z.ltb_lt in Hneg|]; lia.
Qed.

Lemma str_take_through pre c post :
  str_take (S (String.length pre)) (pre +:+ String c post) = pre +:+ String c EmptyString.
Proof.
  induction pre as [|a pre IH]; [reflexivity|].
  rewrite !append_cons. cbn [String.length str_take]. f_equal. exact IH.
Qed.

Lemma str_take_all s : str_take (String.length s) s = s.
Proof. induction s as [|a s IH]; cbn; [reflexivity | rewrite IH; reflexivity]. Qed.

Lemma py_slice_through pre c post :
  py_slice_to (pre +:+ String c post) (py_len pre + 1) = pre +:+ String c EmptyString.
Proof.
  unfold py_slice_to, py_len.
  destruct (Z.of_nat (String.length pre) + 1 <? 0) eqn:Hneg; [apply Z.ltb_lt in Hneg; lia|].
  replace (Z.to_nat (Z.of_nat (String.length pre) + 1)) with (S (String.length pre)) by lia.
  apply str_take_through.
Qed.

Lemma py_slice_all s : py_slice_to s (py_len s) = s.
Proof.
  unfold py_slice_to, py_len.
  destruct (Z.of_nat (String.length s) <? 0) eqn:Hneg; [apply Z.ltb_lt in Hneg; lia|].
  rewrite Nat2Z.id. apply str_take_all.
Qed.

Lemma py_or_nonzero a b : a <> 0 -> py_or a b = a.
Proof. intros Ha. unfold py_or. destruct (a =? 0) eqn:H0; [apply Z.eqb_eq in H0; lia | reflexivity]. Qed.

Lemma base_msg_backtick pre post :
  lacks "`" pre -> base_msg_of (pre +:+ "`" +:+ post) = pre +:+ "`".
Proof.
  intros Hno. unfold base_msg_of. rewrite append_cons, append_nil_l.
  rewrite (py_find_first _ _ _ Hno).
  assert (py_len pre + 1 <> 0) by (unfold py_len; lia).
  rewrite !py_or_nonzero by (rewrite ?py_or_nonzero; assumption).
  apply py_slice_through.
Qed.

Lemma base_msg_quote pre post :
  lacks "`" (pre +:+ "'" +:+ post) -> lacks "'" pre ->
  base_msg_of (pre +:+ "'" +:+ post) = pre +:+ "'".
Proof.
  intros Hnob Hno. unfold base_msg_of.
  rewrite (py_find_lacks _ _ Hnob). rewrite append_cons, append_nil_l.
  rewrite (py_find_first _ _ _ Hno).
  assert (py_len pre + 1 <> 0) by (unfold py_len; lia).
  change (py_or (-1 + 1) (py_len pre + 1)) with (py_len pre + 1).
  rewrite py_or_nonzero by assumption.
  apply py_slice_through.
Qed.

Lemma base_msg_whole msg : lacks "`" msg -> lacks "'" msg -> base_msg_of msg = msg.
Proof.
  intros Hnob Hnoq. unfold base_msg_of.
  rewrite (py_find_lacks _ _ Hnob), (py_find_lacks _ _ Hnoq).
  change (py_or (py_or (-1 + 1) (-1 + 1)) (py_len msg)) with (py_len msg).
  apply py_slice_all.
Qed.

(** C7: the grouping key of a message is its text through the first
    backtick; when it has no backtick, through the first single quote; when
    it has neither, the whole message.  In particular, when one call fails
    with the message "Table `a.b.c` not found" and the next with "Table
    `d.e.f` not found", both are filed under the one key "Table `", and (the
    key being new and the list having room for two) the list under that key
    holds the two full messages, which differ. *)
Theorem errors_grouped_by_message_prefix (msg : string) :
  (forall pre post, msg = pre +:+ "`" +:+ post -> lacks "`" pre ->
                    base_msg_of msg = pre +:+ "`")
  /\ (forall pre post, lacks "`" msg -> msg = pre +:+ "'" +:+ post -> lacks "'" pre ->
                       base_msg_of msg = pre +:+ "'")
  /\ (lacks "`" msg -> lacks "'" msg -> base_msg_of msg = msg)
  /\ forall depth ref1 ref2 wait1 wait2 analyze1 analyze2 columns1 columns2
            (st st1 st2 : State) e1 e2,
       (2 <= max_elements)%nat ->
       profile_table_errors (report st) !! "Table `" = None ->
       str_of_error e1 = "Table `a.b.c` not found" ->
       str_of_error e2 = "Table `d.e.f` not found" ->
       get_table_stats_try ref1 wait1 analyze1 columns1 st = Some (st1, Raises e1) ->
       get_table_stats_try ref2 wait2 analyze2 columns2 (recorded ref1 e1 st1)
       = Some (st2, Raises e2) ->
       get_table_stats (S depth) ref1 wait1 analyze1 columns1 st
       = Some (recorded ref1 e1 st1, Returns None)
       /\ get_table_stats (S depth) ref2 wait2 analyze2 columns2 (recorded ref1 e1 st1)
          = Some (recorded ref2 e2 st2, Returns None)
       /\ base_msg_of (str_of_error e1) = "Table `"
       /\ base_msg_of (str_of_error e2) = "Table `"
       /\ profile_table_errors (report (recorded ref2 e2 st2)) !! "Table `"
          = Some [(ref_str ref1, "Table `a.b.c` not found");
                  (ref_str ref2, "Table `d.e.f` not found")]
       /\ (ref_str ref1, "Table `a.b.c` not found")
          <> (ref_str ref2, "Table `d.e.f` not found").
Proof.
  split; [|split; [|split]].
  - intros pre post -> Hno. apply base_msg_backtick, Hno.
  - intros pre post Hnob -> Hno. apply base_msg_quote; assumption.
  - apply base_msg_whole.
  - intros depth ref1 ref2 wait1 wait2 analyze1 analyze2 columns1 columns2
           st st1 st2 e1 e2 Hcap Hnew Hm1 Hm2 Htry1 Htry2.
    assert (Hno1 : py_in unsupported_column_token (str_of_error e1) = false)
      by (rewrite Hm1; reflexivity).
    assert (Hno2 : py_in unsupported_column_token (str_of_error e2) = false)
      by (rewrite Hm2; reflexivity).
    assert (Hk1 : base_msg_of (str_of_error e1) = "Table `") by (rewrite Hm1; reflexivity).
    assert (Hk2 : base_msg_of (str_of_error e2) = "Table `") by (rewrite Hm2; reflexivity).
    split; [rewrite get_table_stats_unfold, Htry1, Hno1, andb_false_r; reflexivity|].
    split; [rewrite get_table_stats_unfold, Htry2, Hno2, andb_false_r; reflexivity|].
    split; [assumption|]. split; [assumption|].
    split; [|intros [= _ Hneq]; discriminate Hneq].
    destruct (get_table_stats_try_run ref1 wait1 analyze1 columns1 st)
      as (st1' & r1 & new1 & Hrun1 & _ & Her1 & _).
    rewrite Htry1 in Hrun1. injection Hrun1 as <- <-.
    destruct (get_table_stats_try_run ref2 wait2 analyze2 columns2 (recorded ref1 e1 st1))
      as (st2' & r2 & new2 & Hrun2 & _ & Her2 & _).
    rewrite Htry2 in Hrun2. injection Hrun2 as <- <-.
    unfold recorded at 1. cbn [report with_report].
    rewrite Hk2, Hm2, append_error_lookup, Her2.
    unfold recorded. cbn [report with_report].
    rewrite Hk1, Hm1, append_error_lookup, Her1, Hnew. cbn [default].
    unfold LossyList_append. cbn [length app].
    destruct max_elements as [|[|cap]]; [lia | lia | reflexivity].
Qed.

(** *** A statement that stays pending *)

Lemma non_terminal_not_succeeded s :
  non_terminal s = true -> StatementState_eqb s SUCCEEDED = false.
Proof. destruct s; cbn; congruence. Qed.

(** While every status lookup is answered PENDING or RUNNING, the loop
    neither raises nor sees anything else. *)
Lemma poll_loop_pending fuel : forall (k : nat) id max_wait_secs s (st st' : State) r new,
  (Z.to_nat (max_wait_secs - scheduled_wait k) < fuel)%nat ->
  poll_loop fuel id max_wait_secs (scheduled_wait k) (scheduled_backoff k) s st = Some (st', r) ->
  trace st' = trace st ++ new ->
  Forall answered_non_terminal new ->
  non_terminal (state s) = true ->
  exists final, r = Returns final /\ non_terminal (state final) = true /\ report st' = report st.
Proof.
  induction fuel as [|fuel IH]; intros k id mw s st st' r new Hfuel Hrun Htr Hall Hs; [lia|].
  cbn [poll_loop] in Hrun. unfold bind at 1, poll_guard in Hrun.
  destruct (scheduled_wait k <? mw) eqn:Hlt.
  2:{ injection Hrun as <- <-. exists s. repeat split. exact Hs. }
  apply Z.ltb_lt in Hlt.
  unfold bind at 1, inspect, ret in Hrun.
  rewrite (non_terminal_not_succeeded _ Hs) in Hrun. cbn [negb] in Hrun.
  unfold bind at 1, time_sleep in Hrun.
  unfold bind at 1, remote in Hrun. cbn [world report trace log] in Hrun.
  destruct (get_statement id (sleep _ (world st))) as [w [response|e]].
  2:{ injection Hrun as <- <-. cbn [trace] in Htr.
      rewrite <- !app_assoc in Htr. apply app_inv_head in Htr. subst new.
      cbn in Hall. inversion Hall as [|? ? _ Hall1]. inversion Hall1 as [|? ? _ Hall2].
      inversion Hall2 as [|? ? Hbad _]. destruct Hbad. }
  unfold bind at 1 in Hrun. rewrite raise_if_error_run in Hrun.
  destruct (non_terminal (state (status response))) eqn:Hresp; cbn [orb] in Hrun.
  - pose proof (scheduled_backoff_pos k) as Hpos.
    replace (scheduled_wait k + scheduled_backoff k) with (scheduled_wait (S k)) in Hrun
      by reflexivity.
    rewrite <- scheduled_backoff_S in Hrun.
    assert (Hfuel' : (Z.to_nat (mw - scheduled_wait (S k)) < fuel)%nat)
      by (cbn [scheduled_wait]; lia).
    match type of Hrun with
    | poll_loop _ _ _ _ _ _ ?st3 = _ =>
        destruct (poll_loop_schedule fuel (S k) id mw (status response) st3 Hfuel')
          as (st'' & r'' & new'' & n & Hrun'' & Hrep'' & Htr'' & _);
        rewrite Hrun'' in Hrun; injection Hrun as <- <-;
        destruct (IH (S k) id mw (status response) st3 st'' r'' new'' Hfuel' Hrun'' Htr'')
          as (final & Hfinal & Hnt & Hrep)
    end.
    + cbn [trace] in Htr''. rewrite Htr'' in Htr.
      rewrite <- !app_assoc in Htr. apply app_inv_head in Htr. subst new.
      cbn in Hall. inversion Hall as [|? ? _ Hall1]. inversion Hall1 as [|? ? _ Hall2].
      inversion Hall2 as [|? ? _ Hall3]. exact Hall3.
    + exact Hresp.
    + exists final. repeat split; assumption.
  - exfalso.
    assert (Hin : Forall answered_non_terminal
                    [EvGetStatement id (Returns response)] -> False).
    { intros Hbad. inversion Hbad as [|? ? Hev _]. cbn in Hev. congruence. }
    destruct (StatementState_eqb (state (status response)) SUCCEEDED).
    + pose proof (scheduled_backoff_pos k) as Hpos.
      replace (scheduled_wait k + scheduled_backoff k) with (scheduled_wait (S k)) in Hrun
        by reflexivity.
      rewrite <- scheduled_backoff_S in Hrun.
      assert (Hfuel' : (Z.to_nat (mw - scheduled_wait (S k)) < fuel)%nat)
        by (cbn [scheduled_wait]; lia).
      match type of Hrun with
      | poll_loop _ _ _ _ _ _ ?st3 = _ =>
          destruct (poll_loop_schedule fuel (S k) id mw (status response) st3 Hfuel')
            as (st'' & r'' & new'' & n & Hrun'' & Hrep'' & Htr'' & _);
          rewrite Hrun'' in Hrun; injection Hrun as <- <-
      end.
      cbn [trace] in Htr''. rewrite Htr'' in Htr.
      rewrite <- !app_assoc in Htr. apply app_inv_head in Htr. subst new.
      apply Hin. cbn in Hall. inversion Hall as [|? ? _ Hall1].
      inversion Hall1 as [|? ? _ Hall2]. inversion Hall2 as [|? ? Hev _].
      constructor; [exact Hev | constructor].
    + injection Hrun as <- <-. cbn [trace] in Htr.
      rewrite <- !app_assoc in Htr. apply app_inv_head in Htr. subst new.
      apply Hin. cbn in Hall. inversion Hall as [|? ? _ Hall1].
      inversion Hall1 as [|? ? _ Hall2]. exact Hall2.
Qed.

(** The poller on a statement that stays pending: it returns false. *)
Lemma check_status_pending execute_response max_wait_secs (st : State) :
  non_terminal (state (status execute_response)) = true ->
  Forall answered_non_terminal
    (events_of (_check_analyze_table_statement_status execute_response max_wait_secs) st) ->
  exists st',
    _check_analyze_table_statement_status execute_response max_wait_secs st
    = Some (st', Returns false)
    /\ report st' = report st.
Proof.
  intros Hs Hall.
  assert (Hfuel : (Z.to_nat (max_wait_secs - scheduled_wait 0) < poll_fuel max_wait_secs)%nat)
    by (unfold poll_fuel; cbn [scheduled_wait]; lia).
  destruct (poll_loop_schedule (poll_fuel max_wait_secs) 0 (statement_id execute_response)
              max_wait_secs (status execute_response) st Hfuel)
    as (st1 & r1 & new1 & n & Hrun1 & Hrep1 & Htr1 & _).
  assert (Hcheck : exists st' r tail,
            _check_analyze_table_statement_status execute_response max_wait_secs st
            = Some (st', r)
            /\ trace st' = trace st ++ new1 ++ tail
            /\ (forall final, r1 = Returns final ->
                  st' = log (EvInspect (state final)) st1
                  /\ r = Returns (StatementState_eqb (state final) SUCCEEDED))).
  { unfold _check_analyze_table_statement_status, bind at 1.
    change 0 with (scheduled_wait 0) at 1. change 1 with (scheduled_backoff 0) at 1.
    rewrite Hrun1. destruct r1 as [final|e].
    - unfold bind, inspect, ret. eexists _, _, [EvInspect (state final)].
      split; [reflexivity|]. split.
      + cbn. rewrite Htr1, <- app_assoc. reflexivity.
      + intros final' [= <-]. split; reflexivity.
    - eexists _, _, []. split; [reflexivity|]. split.
      + rewrite app_nil_r. exact Htr1.
      + intros final [=]. }
  destruct Hcheck as (st' & r & tail & Hrun & Htr & Hret).
  rewrite (events_of_run _ _ _ _ _ Hrun Htr) in Hall.
  apply Forall_app in Hall as [Hall1 _].
  destruct (poll_loop_pending _ _ _ _ _ _ _ _ _ Hfuel Hrun1 Htr1 Hall1 Hs)
    as (final & -> & Hfinal & _).
  destruct (Hret final eq_refl) as [-> ->].
  rewrite (non_terminal_not_succeeded _ Hfinal) in Hrun.
  eexists. split; [exact Hrun | exact Hrep1].
Qed.

(** C5: when the submitted statement starts out PENDING or RUNNING and every
    status lookup the poller makes within its budget is answered PENDING or
    RUNNING, the poller returns false without raising, and [get_table_stats]
    returns absence without raising, having appended the table reference to
    the timeout list (an append to a bounded list: the reference becomes its
    last entry whenever the list has room) and changed nothing else in the
    report. *)
Theorem pending_statement_times_out execute_response max_wait_secs :
  non_terminal (state (status execute_response)) = true ->
  (forall st : State,
     Forall answered_non_terminal
       (events_of (_check_analyze_table_statement_status execute_response max_wait_secs) st) ->
     exists st',
       _check_analyze_table_statement_status execute_response max_wait_secs st
       = Some (st', Returns false)
       /\ report st' = report st)
  /\ (forall depth ref include_columns (st : State) w,
        execute_statement (analyze_statement ref include_columns) (catalog ref) "0s"
          warehouse_id (world st) = (w, Returns execute_response) ->
        Forall answered_non_terminal
          (events_of (_check_analyze_table_statement_status execute_response max_wait_secs)
             (submitted ref include_columns w st)) ->
        exists st',
          get_table_stats (S depth) ref max_wait_secs true include_columns st
          = Some (st', Returns None)
          /\ report st' = append_timeout max_elements (ref_str ref) (report st)
          /\ ((length (profile_table_timeouts (report st)) < max_elements)%nat ->
              profile_table_timeouts (report st')
              = profile_table_timeouts (report st) ++ [ref_str ref])).
Proof.
  intros Hs. split.
  - intros st Hall.
    destruct (check_status_pending execute_response max_wait_secs st Hs Hall)
      as (st' & Hrun & Hrep).
    exists st'. split; assumption.
  - intros depth ref include_columns st w Hexec Hall.
    destruct (check_status_pending execute_response max_wait_secs _ Hs Hall)
      as (st2 & Hrun & Hrep).
    rewrite get_table_stats_unfold. unfold get_table_stats_try.
    destruct (analyze_table_run ref include_columns st) as (w' & res & Hexec' & Hsubmit).
    rewrite Hexec in Hexec'. injection Hexec' as <- <-.
    rewrite Hs in Hsubmit. cbn [orb] in Hsubmit.
    unfold bind at 1. rewrite Hsubmit.
    fold (submitted ref include_columns w st).
    unfold bind at 1. rewrite Hrun. cbn [negb].
    unfold bind, modify_report, ret.
    eexists. split; [reflexivity|]. cbn [report with_report]. rewrite Hrep.
    split; [reflexivity|]. intros Hroom. cbn. unfold LossyList_append.
    apply Nat.ltb_lt in Hroom. rewrite Hroom. reflexivity.
Qed.

(** *** Runs of the poller, event by event *)

Lemma raise_if_error_failure response key (st : State) :
  _raise_if_error response key st =
    Some (st, match failure_of key response with
              | Some e => Raises e
              | None => Returns tt
              end).
Proof. unfold _raise_if_error, failure_of. destruct (state (status response)); reflexivity. Qed.

Lemma not_succeeded_iff s : negb (StatementState_eqb s SUCCEEDED) = true <-> s <> SUCCEEDED.
Proof. destruct s; cbn; split; congruence. Qed.

(** Every run of the loop is one of the runs [polled] describes. *)
Lemma poll_loop_polled fuel : forall (k : nat) id max_wait_secs s (st : State),
  (Z.to_nat (max_wait_secs - scheduled_wait k) < fuel)%nat ->
  exists st' r new,
    poll_loop fuel id max_wait_secs (scheduled_wait k) (scheduled_backoff k) s st = Some (st', r)
    /\ trace st' = trace st ++ new
    /\ report st' = report st
    /\ polled id max_wait_secs k s new r.
Proof.
  induction fuel as [|fuel IH]; intros k id mw s st Hfuel; [lia|].
  cbn [poll_loop]. unfold bind at 1, poll_guard.
  destruct (scheduled_wait k <? mw) eqn:Hlt.
  2:{ apply Z.ltb_ge in Hlt. exists st, (Returns s), [].
      rewrite app_nil_r. repeat split. constructor. exact Hlt. }
  apply Z.ltb_lt in Hlt.
  unfold bind at 1, inspect, ret.
  destruct (negb (StatementState_eqb (state s) SUCCEEDED)) eqn:Hs.
  2:{ eexists _, (Returns s), [EvInspect (state s)]. cbn.
      repeat split. apply polled_succeeded; [exact Hlt|].
      destruct (state s); cbn in Hs; congruence. }
  apply not_succeeded_iff in Hs.
  unfold bind at 1, time_sleep.
  unfold bind at 1, remote. cbn [world report trace log].
  destruct (get_statement id (sleep _ (world st))) as [w [response|e]].
  2:{ eexists _, (Raises e), _. cbn [trace report]. rewrite <- !app_assoc.
      split; [reflexivity|]. split; [reflexivity|]. split; [reflexivity|].
      apply polled_lookup_raised; assumption. }
  unfold bind at 1. rewrite raise_if_error_failure.
  destruct (failure_of "get-statement" response) as [e|] eqn:Hfail.
  { eexists _, (Raises e), _. cbn [trace report]. rewrite <- !app_assoc.
    split; [reflexivity|]. split; [reflexivity|]. split; [reflexivity|].
    eapply polled_statement_failed; eassumption. }
  pose proof (scheduled_backoff_pos k) as Hpos.
  replace (scheduled_wait k + scheduled_backoff k) with (scheduled_wait (S k)) by reflexivity.
  rewrite <- scheduled_backoff_S.
  edestruct (IH (S k) id mw (status response)) as (st' & r & new & Hrun & Htr & Hrep & Hpolled).
  { cbn [scheduled_wait]. lia. }
  rewrite Hrun. eexists st', r, _.
  split; [reflexivity|].
  split; [rewrite Htr; cbn [trace]; rewrite <- !app_assoc; reflexivity|].
  split; [rewrite Hrep; reflexivity|].
  apply polled_again; assumption.
Qed.

(** A run of the poller: a run of the loop from iteration 0, then, when the
    loop returns, the final comparison. *)
Lemma check_status_polled execute_response max_wait_secs (st : State) :
  exists st' r evs r1,
    polled (statement_id execute_response) max_wait_secs 0 (status execute_response) evs r1
    /\ report st' = report st
    /\ match r1 with
       | Returns final =>
           _check_analyze_table_statement_status execute_response max_wait_secs st
           = Some (st', r)
           /\ trace st' = trace st ++ evs ++ [EvInspect (state final)]
           /\ r = Returns (StatementState_eqb (state final) SUCCEEDED)
       | Raises e =>
           _check_analyze_table_statement_status execute_response max_wait_secs st
           = Some (st', r)
           /\ trace st' = trace st ++ evs
           /\ r = Raises e
       end.
Proof.
  destruct (poll_loop_polled (poll_fuel max_wait_secs) 0 (statement_id execute_response)
              max_wait_secs (status execute_response) st)
    as (st1 & r1 & evs & Hrun & Htr & Hrep & Hpolled).
  { unfold poll_fuel. cbn [scheduled_wait]. lia. }
  change (scheduled_wait 0) with 0 in Hrun. change (scheduled_backoff 0) with 1 in Hrun.
  assert (Hcheck : _check_analyze_table_statement_status execute_response max_wait_secs st
                   = match r1 with
                     | Returns final =>
                         Some (log (EvInspect (state final)) st1,
                               Returns (StatementState_eqb (state final) SUCCEEDED))
                     | Raises e => Some (st1, Raises e)
                     end).
  { unfold _check_analyze_table_statement_status, bind at 1. rewrite Hrun.
    destruct r1; reflexivity. }
  destruct r1 as [final|e].
  - exists (log (EvInspect (state final)) st1),
      (Returns (StatementState_eqb (state final) SUCCEEDED)), evs, (Returns final).
    split; [exact Hpolled|]. split; [exact Hrep|]. split; [exact Hcheck|].
    split; [cbn [trace log]; rewrite Htr, <- app_assoc; reflexivity | reflexivity].
  - exists st1, (Raises e), evs, (Raises e). split; [exact Hpolled|].
    split; [exact Hrep|]. split; [exact Hcheck|]. split; [exact Htr | reflexivity].
Qed.

Lemma total_sleep_app evs1 evs2 : total_sleep (evs1 ++ evs2) = total_sleep evs1 + total_sleep evs2.
Proof.
  unfold total_sleep. rewrite sleeps_of_app.
  induction (sleeps_of evs1) as [|d l IH]; cbn; [reflexivity | rewrite IH; lia].
Qed.

Lemma lookups_of_app evs1 evs2 : lookups_of (evs1 ++ evs2) = lookups_of evs1 ++ lookups_of evs2.
Proof.
  induction evs1 as [|ev evs1 IH]; [reflexivity|].
  destruct ev; cbn; rewrite ?IH; reflexivity.
Qed.

Lemma fetches_of_app evs1 evs2 : fetches_of (evs1 ++ evs2) = fetches_of evs1 ++ fetches_of evs2.
Proof.
  induction evs1 as [|ev evs1 IH]; [reflexivity|].
  destruct ev; cbn; rewrite ?IH; reflexivity.
Qed.

(** The loop never sleeps past what is left of the budget, and when it gives
    up on a statement that has not succeeded it has slept exactly that. *)
Lemma polled_total_sleep id max_wait_secs k s evs r :
  polled id max_wait_secs k s evs r ->
  total_sleep evs <= Z.max 0 (max_wait_secs - scheduled_wait k)
  /\ (forall final, r = Returns final -> state final <> SUCCEEDED ->
        total_sleep evs = Z.max 0 (max_wait_secs - scheduled_wait k)).
Proof.
  induction 1 as [k s Hout | k s Hlt Hs | k s e Hlt Hs | k s response e Hlt Hs Hfail
                 | k s response rest r Hlt Hs Hfail Hrest [IHle IHeq]].
  - cbn. split; [lia|]. intros; lia.
  - cbn. split; [lia|]. intros final [= <-] Hne. contradiction.
  - unfold total_sleep. cbn. split; [lia|]. intros final [=].
  - unfold total_sleep. cbn. split; [lia|]. intros final [=].
  - pose proof (scheduled_backoff_pos k) as Hpos.
    assert (Hcons : total_sleep
              (EvInspect (state s)
               :: EvSleep (Z.min (scheduled_backoff k) (max_wait_secs - scheduled_wait k))
               :: EvGetStatement id (Returns response) :: rest)
            = Z.min (scheduled_backoff k) (max_wait_secs - scheduled_wait k)
              + total_sleep rest) by reflexivity.
    rewrite Hcons. cbn [scheduled_wait] in IHle, IHeq. split; [lia|].
    intros final Hr Hne. specialize (IHeq final Hr Hne). lia.
Qed.

(** One status lookup per sleep, each for the polled statement; nothing but
    comparisons, sleeps and lookups; a raise comes from the last lookup. *)
Lemma polled_shape id max_wait_secs k s evs r :
  polled id max_wait_secs k s evs r ->
  length (lookups_of evs) = length (sleeps_of evs)
  /\ Forall (fun lookup => fst lookup = id) (lookups_of evs)
  /\ Forall poller_event evs
  /\ (forall e, r = Raises e ->
        exists pre answer,
          evs = pre ++ [EvGetStatement id answer]
          /\ match answer with
             | Raises e' => e' = e
             | Returns response => failure_of "get-statement" response = Some e
             end)
  /\ (forall final, r = Returns final ->
        (lookups_of evs = [] /\ final = s)
        \/ exists response, last (lookups_of evs) = Some (id, Returns response)
                            /\ final = status response
                            /\ failure_of "get-statement" response = None).
Proof.
  induction 1 as [k s Hout | k s Hlt Hs | k s e Hlt Hs | k s response e Hlt Hs Hfail
                 | k s response rest r Hlt Hs Hfail Hrest (IHlen & IHid & IHev & IHraise & IHret)].
  - split; [reflexivity|]. split; [constructor|]. split; [constructor|]. split.
    + intros e [=].
    + intros final' [= <-]. left. split; reflexivity.
  - split; [reflexivity|]. split; [constructor|]. split; [repeat constructor|]. split.
    + intros e [=].
    + intros final' [= <-]. left. split; reflexivity.
  - split; [reflexivity|]. split; [repeat constructor|]. split; [repeat constructor|]. split.
    + intros e' [= <-]. eexists [_; _], (Raises e). split; reflexivity.
    + intros final' [=].
  - split; [reflexivity|]. split; [repeat constructor|]. split; [repeat constructor|]. split.
    + intros e' [= <-]. eexists [_; _], (Returns response). split; [reflexivity | exact Hfail].
    + intros final' [=].
  - cbn. split; [rewrite IHlen; reflexivity|].
    split; [constructor; [reflexivity | exact IHid]|].
    split; [repeat constructor; exact IHev|]. split.
    + intros e Hr. destruct (IHraise e Hr) as (pre & answer & -> & Hanswer).
      eexists (_ :: _ :: _ :: pre), answer. split; [reflexivity | exact Hanswer].
    + intros final' Hr. right.
      destruct (IHret final' Hr) as [[Hnone ->] | (resp' & Hlast & -> & Hok)].
      * exists response. rewrite Hnone. repeat split. exact Hfail.
      * exists resp'. split; [|split; [reflexivity | exact Hok]].
        destruct (lookups_of rest) as [|x l]; [discriminate Hlast | exact Hlast].
Qed.

(** When the loop ends on a statement that has not succeeded, the waits
    scheduled so far have used up the budget. *)
Lemma polled_gives_up id max_wait_secs k s evs r :
  polled id max_wait_secs k s evs r ->
  forall final, r = Returns final -> state final <> SUCCEEDED ->
    max_wait_secs <= scheduled_wait (k + length (sleeps_of evs)).
Proof.
  induction 1 as [k s Hout | k s Hlt Hs | k s e Hlt Hs | k s response e Hlt Hs Hfail
                 | k s response rest r Hlt Hs Hfail Hrest IH]; intros final' Hr Hne.
  - cbn. rewrite Nat.add_0_r. exact Hout.
  - injection Hr as <-. contradiction.
  - discriminate Hr.
  - discriminate Hr.
  - cbn [sleeps_of length]. rewrite <- Nat.add_succ_comm. exact (IH final' Hr Hne).
Qed.

Lemma total_sleep_inspect s : total_sleep [EvInspect s] = 0.
Proof. reflexivity. Qed.

(** The poller never sleeps longer in all than [max_wait_secs]; and when it
    returns false it has slept exactly that long (nothing, for a budget
    below zero) and its scheduled waits have reached the budget. *)
Theorem poller_never_oversleeps execute_response max_wait_secs (st : State) :
  exists st' r new,
    _check_analyze_table_statement_status execute_response max_wait_secs st = Some (st', r)
    /\ trace st' = trace st ++ new
    /\ total_sleep new <= Z.max 0 max_wait_secs
    /\ (r = Returns false ->
          total_sleep new = Z.max 0 max_wait_secs
          /\ max_wait_secs <= scheduled_wait (length (sleeps_of new))).
Proof.
  destruct (check_status_polled execute_response max_wait_secs st)
    as (st' & r & evs & r1 & Hpolled & _ & Hrun).
  destruct (polled_total_sleep _ _ _ _ _ _ Hpolled) as [Hle Heq].
  pose proof (polled_gives_up _ _ _ _ _ _ Hpolled) as Hup.
  change (scheduled_wait 0) with 0 in Hle, Heq. rewrite Z.sub_0_r in Hle, Heq.
  destruct r1 as [final|e].
  - destruct Hrun as (Hrun & Htr & ->).
    exists st', (Returns (StatementState_eqb (state final) SUCCEEDED)),
      (evs ++ [EvInspect (state final)]).
    split; [exact Hrun|]. split; [exact Htr|].
    rewrite total_sleep_app, total_sleep_inspect, Z.add_0_r, sleeps_of_app.
    cbn [sleeps_of]. rewrite app_nil_r.
    split; [exact Hle|]. intros [= Hfalse].
    assert (Hne : state final <> SUCCEEDED).
    { intros Heq'. rewrite Heq' in Hfalse. discriminate Hfalse. }
    split; [exact (Heq final eq_refl Hne) | exact (Hup final eq_refl Hne)].
  - destruct Hrun as (Hrun & Htr & ->).
    exists st', (Raises e), evs. split; [exact Hrun|]. split; [exact Htr|].
    split; [exact Hle|]. intros [=].
Qed.

(** A statement already SUCCEEDED when handed to the poller: the poller
    returns true at once; it neither sleeps nor looks the status up, and the
    remote system and the report are as before. *)
Theorem poller_succeeded_at_once execute_response max_wait_secs (st : State) :
  state (status execute_response) = SUCCEEDED ->
  exists st' new,
    _check_analyze_table_statement_status execute_response max_wait_secs st
    = Some (st', Returns true)
    /\ world st' = world st
    /\ report st' = report st
    /\ trace st' = trace st ++ new
    /\ Forall (fun ev => ev = EvInspect SUCCEEDED) new.
Proof.
  intros Hs.
  unfold _check_analyze_table_statement_status, poll_fuel. cbn [poll_loop].
  unfold bind at 1. unfold bind at 1. unfold poll_guard.
  destruct (0 <? max_wait_secs).
  - unfold bind at 1, inspect, ret. rewrite Hs. cbn [StatementState_eqb negb].
    unfold bind, log. cbn [trace]. rewrite Hs.
    eexists _, [EvInspect SUCCEEDED; EvInspect SUCCEEDED].
    split; [reflexivity|]. cbn [world report trace]. rewrite <- app_assoc.
    repeat split; repeat constructor.
  - unfold ret, bind, inspect, log. rewrite Hs.
    eexists _, [EvInspect SUCCEEDED].
    split; [reflexivity|]. cbn [world report trace].
    repeat split; repeat constructor.
Qed.

(** When the poller raises, the error comes from its last status lookup:
    either the lookup itself raised it, or the lookup answered FAILED,
    CANCELED or CLOSED and the error carries that status's message and code
    under the context "get-statement". *)
Theorem poller_raises_from_last_lookup execute_response max_wait_secs (st st' : State) e new :
  _check_analyze_table_statement_status execute_response max_wait_secs st
  = Some (st', Raises e) ->
  trace st' = trace st ++ new ->
  exists pre answer,
    new = pre ++ [EvGetStatement (statement_id execute_response) answer]
    /\ match answer with
       | Raises e' => e' = e
       | Returns response =>
           state (status response) ∈ [FAILED; CANCELED; CLOSED]
           /\ e = {| de_message := se_message (error (status response));
                     de_error_code := se_error_code (error (status response));
                     de_status := StatementState_value (state (status response));
                     de_context := "get-statement" |}
       end.
Proof.
  intros Hraise Htr.
  destruct (check_status_polled execute_response max_wait_secs st)
    as (st1 & r & evs & r1 & Hpolled & _ & Hrun).
  destruct (polled_shape _ _ _ _ _ _ Hpolled) as (_ & _ & _ & Horigin & _).
  destruct r1 as [final|e1]; destruct Hrun as (Hrun & Htr1 & ->);
    rewrite Hrun in Hraise; [discriminate Hraise|].
  injection Hraise as <- <-.
  rewrite Htr1 in Htr. apply app_inv_head in Htr. subst new.
  destruct (Horigin e1 eq_refl) as (pre & answer & -> & Hanswer).
  exists pre, answer. split; [reflexivity|].
  destruct answer as [response|e']; [|exact Hanswer].
  unfold failure_of in Hanswer.
  rewrite !elem_of_cons, elem_of_nil.
  destruct (state (status response)) eqn:Hstate; try discriminate Hanswer;
    injection Hanswer as <-; (split; [tauto | reflexivity]).
Qed.

(** The poller looks the status up once per sleep, always under the id of
    the statement it was handed; it does nothing but compare, sleep and look
    up (no submission, no metadata fetch), and leaves the report alone. *)
Theorem poller_one_lookup_per_sleep execute_response max_wait_secs (st : State) :
  exists st' r new,
    _check_analyze_table_statement_status execute_response max_wait_secs st = Some (st', r)
    /\ trace st' = trace st ++ new
    /\ report st' = report st
    /\ length (lookups_of new) = length (sleeps_of new)
    /\ Forall (fun lookup => fst lookup = statement_id execute_response) (lookups_of new)
    /\ Forall poller_event new.
Proof.
  destruct (check_status_polled execute_response max_wait_secs st)
    as (st' & r & evs & r1 & Hpolled & Hrep & Hrun).
  destruct (polled_shape _ _ _ _ _ _ Hpolled) as (Hlen & Hids & Hevs & _ & _).
  destruct r1 as [final|e]; destruct Hrun as (Hrun & Htr & ->).
  - eexists st', _, (evs ++ [EvInspect (state final)]).
    split; [exact Hrun|]. split; [exact Htr|]. split; [exact Hrep|].
    rewrite lookups_of_app, sleeps_of_app. cbn [lookups_of sleeps_of]. rewrite !app_nil_r.
    split; [exact Hlen|]. split; [exact Hids|].
    apply Forall_app. split; [exact Hevs | repeat constructor].
  - exists st', (Raises e), evs. repeat split; assumption.
Qed.

(** *** What a whole call costs and what it leaves in the report *)

Lemma LossyList_append_prefix {A} cap (l : list A) x : l `prefix_of` LossyList_append cap l x.
Proof.
  unfold LossyList_append. destruct (length l <? cap)%nat; [exists [x] | exists []].
  - reflexivity.
  - symmetry. apply app_nil_r.
Qed.

Lemma LossyList_append_length {A} cap (l : list A) x :
  (length (LossyList_append cap l x) <= S (length l))%nat.
Proof.
  unfold LossyList_append. destruct (length l <? cap)%nat; [rewrite length_app; cbn|]; lia.
Qed.

Lemma poller_event_quiet evs :
  Forall poller_event evs -> fetches_of evs = [] /\ submissions_of evs = [].
Proof.
  induction 1 as [|ev evs Hev _ IH]; [split; reflexivity|].
  destruct ev; cbn in Hev |- *; try contradiction; exact IH.
Qed.

Lemma failed_casts_nonneg table_info keys : 0 <= failed_casts table_info keys.
Proof. unfold failed_casts. lia. Qed.

Lemma failed_casts_le table_info keys :
  failed_casts table_info keys <= Z.of_nat (length keys).
Proof. unfold failed_casts. pose proof (List.filter_length_le (unparseable table_info) keys). lia. Qed.

(** One metadata fetch and the extraction that follows it. *)
Lemma get_table_profile_effects ref include_columns (st : State) :
  exists st' r,
    _get_table_profile ref include_columns st = Some (st', r)
    /\ trace st' = trace st ++ [EvGetTable (qualified_table_name ref)]
    /\ profile_table_timeouts (report st') = profile_table_timeouts (report st)
    /\ profile_table_errors (report st') = profile_table_errors (report st)
    /\ num_profile_failed_unsupported_column_type (report st')
       = num_profile_failed_unsupported_column_type (report st)
    /\ num_profile_failed_int_casts (report st) <= num_profile_failed_int_casts (report st')
    /\ (forall p, r = Returns p ->
          exists table_info, p = table_profile_of table_info include_columns).
Proof.
  unfold _get_table_profile, bind, remote.
  destruct (tables_get _ (world st)) as [w [table_info|e]].
  - edestruct (create_table_profile_run table_info include_columns)
      as (st' & Hrun & Hfr).
    rewrite Hrun. destruct Hfr as (_ & Htr & Hto & Her & Hun & Hcasts).
    pose proof (failed_casts_nonneg table_info (numeric_keys table_info include_columns)).
    eexists _, _. split; [reflexivity|]. cbn [trace report] in *.
    repeat split; try assumption; try lia.
    intros p [= <-]. exists table_info. reflexivity.
  - eexists _, _. split; [reflexivity|]. cbn. repeat split; try lia. intros p [=].
Qed.

(** One run of the [try] block, with what it costs and what it writes. *)
Lemma get_table_stats_try_effects ref max_wait_secs call_analyze include_columns (st : State) :
  exists st' r new,
    get_table_stats_try ref max_wait_secs call_analyze include_columns st = Some (st', r)
    /\ trace st' = trace st ++ new
    /\ submissions_of new
       = (if call_analyze then [analyze_statement ref include_columns] else [])
    /\ total_sleep new <= (if call_analyze then Z.max 0 max_wait_secs else 0)
    /\ (length (fetches_of new) <= 1)%nat
    /\ (call_analyze = false -> new = [EvGetTable (qualified_table_name ref)])
    /\ profile_table_errors (report st') = profile_table_errors (report st)
    /\ num_profile_failed_unsupported_column_type (report st')
       = num_profile_failed_unsupported_column_type (report st)
    /\ num_profile_failed_int_casts (report st) <= num_profile_failed_int_casts (report st')
    /\ (profile_table_timeouts (report st') = profile_table_timeouts (report st)
        \/ (r = Returns None
            /\ profile_table_timeouts (report st')
               = LossyList_append max_elements (profile_table_timeouts (report st))
                   (ref_str ref)))
    /\ (forall p, r = Returns (Some p) ->
          profile_table_timeouts (report st') = profile_table_timeouts (report st)
          /\ exists table_info, p = table_profile_of table_info include_columns).
Proof.
  unfold get_table_stats_try. destruct call_analyze.
  - destruct (analyze_table_run ref include_columns st) as (w & res & _ & Hrun).
    unfold bind at 1. rewrite Hrun. clear Hrun.
    set (ev := EvExecute (analyze_statement ref include_columns) (catalog ref)).
    set (st1 := {| world := w; report := report st; trace := trace st ++ [ev] |}).
    pose proof (Z.le_max_l 0 max_wait_secs) as Hmax.
    assert (Hstop : forall e,
      exists st' r new,
        Some (st1, @Raises (option TableProfile) e) = Some (st', r)
        /\ trace st' = trace st ++ new
        /\ submissions_of new = [analyze_statement ref include_columns]
        /\ total_sleep new <= Z.max 0 max_wait_secs
        /\ (length (fetches_of new) <= 1)%nat
        /\ (true = false -> new = [EvGetTable (qualified_table_name ref)])
        /\ profile_table_errors (report st') = profile_table_errors (report st)
        /\ num_profile_failed_unsupported_column_type (report st')
           = num_profile_failed_unsupported_column_type (report st)
        /\ num_profile_failed_int_casts (report st)
           <= num_profile_failed_int_casts (report st')
        /\ (profile_table_timeouts (report st') = profile_table_timeouts (report st)
            \/ (r = Returns None
                /\ profile_table_timeouts (report st')
                   = LossyList_append max_elements (profile_table_timeouts (report st))
                       (ref_str ref)))
        /\ (forall p, r = Returns (Some p) ->
              profile_table_timeouts (report st') = profile_table_timeouts (report st)
              /\ exists table_info, p = table_profile_of table_info include_columns)).
    { intros e. exists st1, (Raises e), [ev]. cbn.
      repeat split; try reflexivity; try lia; try discriminate.
      - left; reflexivity. }
    destruct res as [response|e]; [|apply Hstop].
    destruct (non_terminal _ || StatementState_eqb _ SUCCEEDED); [|apply Hstop].
    clear Hstop.
    destruct (check_status_polled response max_wait_secs st1)
      as (st2 & r2 & evs & r1 & Hpolled & Hrep & Hrun).
    destruct (polled_total_sleep _ _ _ _ _ _ Hpolled) as [Hle _].
    change (scheduled_wait 0) with 0 in Hle. rewrite Z.sub_0_r in Hle.
    destruct (polled_shape _ _ _ _ _ _ Hpolled) as (_ & _ & Hevs & _ & _).
    destruct (poller_event_quiet _ Hevs) as [Hfetch Hsub].
    destruct r1 as [final|e]; destruct Hrun as (Hrun & Htr & ->);
      unfold bind at 1; rewrite Hrun; clear Hrun.
    2:{ exists st2, (Raises e), (ev :: evs). split; [reflexivity|].
        rewrite Hrep, Htr. cbn [trace report st1]. rewrite <- app_assoc.
        change (total_sleep (ev :: evs)) with (total_sleep evs).
        cbn [submissions_of fetches_of ev app]. rewrite Hsub, Hfetch. cbn [length].
        repeat split; try reflexivity; try lia; try discriminate.
        left; reflexivity. }
    destruct (StatementState_eqb (state final) SUCCEEDED); cbn [negb].
    + destruct (get_table_profile_effects ref include_columns st2)
        as (st3 & r3 & Hrun & Htr3 & Hto & Her & Hun & Hcasts & Hprof).
      unfold bind at 1. rewrite Hrun. clear Hrun.
      exists st3, (match r3 with Returns p => Returns (Some p) | Raises e => Raises e end),
        (ev :: (evs ++ [EvInspect (state final)])
            ++ [EvGetTable (qualified_table_name ref)]).
      split; [destruct r3; reflexivity|].
      split; [rewrite Htr3, Htr; cbn [trace st1]; rewrite <- !app_assoc; reflexivity|].
      rewrite Hto, Her, Hun, Hrep. cbn [report st1].
      split; [cbn [submissions_of ev]; rewrite !submissions_of_app, Hsub; reflexivity|].
      split.
      { change (total_sleep (ev :: ?l)) with (total_sleep l).
        rewrite !total_sleep_app. cbn. lia. }
      split; [cbn [fetches_of ev]; rewrite !fetches_of_app, Hfetch; cbn; lia|].
      split; [discriminate|].
      split; [reflexivity|]. split; [reflexivity|].
      split; [rewrite Hrep in Hcasts; exact Hcasts|].
      split; [left; reflexivity|].
      intros p Hp. split; [reflexivity|].
      destruct r3 as [p'|e']; [|discriminate Hp]. injection Hp as <-.
      apply (Hprof p' eq_refl).
    + exists (with_report (append_timeout max_elements (ref_str ref)) st2), (Returns None),
        (ev :: evs ++ [EvInspect (state final)]).
      split; [reflexivity|]. cbn [trace report with_report append_timeout
        profile_table_timeouts profile_table_errors
        num_profile_failed_unsupported_column_type num_profile_failed_int_casts].
      rewrite Htr, Hrep. cbn [trace report st1].
      split; [rewrite <- app_assoc; reflexivity|].
      split; [cbn [submissions_of ev]; rewrite submissions_of_app, Hsub; reflexivity|].
      split.
      { change (total_sleep (ev :: ?l)) with (total_sleep l).
        rewrite total_sleep_app. cbn. lia. }
      split; [cbn [fetches_of ev]; rewrite fetches_of_app, Hfetch; cbn; lia|].
      split; [discriminate|].
      split; [reflexivity|]. split; [reflexivity|]. split; [lia|].
      split; [right; split; reflexivity|].
      intros p [=].
  - destruct (get_table_profile_effects ref include_columns st)
      as (st3 & r3 & Hrun & Htr3 & Hto & Her & Hun & Hcasts & Hprof).
    unfold bind at 1. rewrite Hrun.
    exists st3, (match r3 with Returns p => Returns (Some p) | Raises e => Raises e end),
      [EvGetTable (qualified_table_name ref)].
    split; [destruct r3; reflexivity|].
    split; [exact Htr3|]. split; [reflexivity|].
    split; [cbn; lia|]. split; [cbn; lia|]. split; [reflexivity|].
    split; [exact Her|]. split; [exact Hun|]. split; [exact Hcasts|].
    split; [left; exact Hto|].
    intros p Hp. split; [exact Hto|].
    destruct r3 as [p'|e']; [|discriminate Hp]. injection Hp as <-.
    apply (Hprof p' eq_refl).
Qed.

Lemma report_grows_refl r : report_grows r r.
Proof.
  unfold report_grows. split; [reflexivity|]. split; [apply keeps_samples_refl|].
  split; [tauto|]. lia.
Qed.

Lemma report_grows_trans r1 r2 r3 :
  report_grows r1 r2 -> report_grows r2 r3 -> report_grows r1 r3.
Proof.
  intros (Ht1 & Hk1 & Hd1 & Hu1 & Hc1) (Ht2 & Hk2 & Hd2 & Hu2 & Hc2).
  split; [etrans; eassumption|].
  split; [eapply keeps_samples_trans; eassumption|].
  split; [intros key Hkey; apply Hd2, Hd1, Hkey|]. lia.
Qed.

Lemma append_error_grows cap key sample r : report_grows r (append_error cap key sample r).
Proof.
  split; [cbn; reflexivity|]. split; [apply append_error_keeps|].
  split; [|cbn; lia].
  intros key' Hkey. cbn. destruct (decide (key = key')) as [<-|Hne].
  - rewrite lookup_insert_eq. eexists; reflexivity.
  - rewrite lookup_insert_ne by exact Hne. exact Hkey.
Qed.

Lemma count_unsupported_grows r : report_grows r (count_unsupported_column_type r).
Proof.
  split; [cbn; reflexivity|]. split; [apply keeps_samples_same; reflexivity|].
  split; [cbn; tauto|]. cbn. lia.
Qed.

(** What the [try] block does to the report, as growth. *)
Lemma get_table_stats_try_grows ref max_wait_secs call_analyze include_columns
    (st st' : State) r :
  get_table_stats_try ref max_wait_secs call_analyze include_columns st = Some (st', r) ->
  report_grows (report st) (report st')
  /\ num_profile_failed_unsupported_column_type (report st')
     = num_profile_failed_unsupported_column_type (report st)
  /\ (length (profile_table_timeouts (report st'))
      <= S (length (profile_table_timeouts (report st))))%nat.
Proof.
  intros Hrun.
  destruct (get_table_stats_try_effects ref max_wait_secs call_analyze include_columns st)
    as (st1 & r1 & new & Hrun1 & _ & _ & _ & _ & _ & Her & Hun & Hcasts & Hto & _).
  rewrite Hrun in Hrun1. injection Hrun1 as <- <-.
  split; [|split; [exact Hun|]].
  - split; [|split; [apply keeps_samples_same, Her|split; [rewrite Her; tauto | lia]]].
    destruct Hto as [-> | [_ ->]]; [reflexivity | apply LossyList_append_prefix].
  - destruct Hto as [-> | [_ ->]]; [lia | apply LossyList_append_length].
Qed.

(** A call that cannot retry: what it costs and what it leaves behind. *)
Lemma get_table_stats_plain_effects depth ref max_wait_secs call_analyze include_columns
    (st : State) :
  call_analyze && include_columns = false ->
  exists st' r new,
    get_table_stats (S depth) ref max_wait_secs call_analyze include_columns st
    = Some (st', Returns r)
    /\ trace st' = trace st ++ new
    /\ submissions_of new
       = (if call_analyze then [analyze_statement ref include_columns] else [])
    /\ total_sleep new <= (if call_analyze then Z.max 0 max_wait_secs else 0)
    /\ (length (fetches_of new) <= 1)%nat
    /\ (call_analyze = false -> new = [EvGetTable (qualified_table_name ref)])
    /\ report_grows (report st) (report st')
    /\ num_profile_failed_unsupported_column_type (report st')
       = num_profile_failed_unsupported_column_type (report st)
    /\ (length (profile_table_timeouts (report st'))
        <= S (length (profile_table_timeouts (report st))))%nat
    /\ (forall p, r = Some p ->
          profile_table_timeouts (report st') = profile_table_timeouts (report st)
          /\ profile_table_errors (report st') = profile_table_errors (report st)
          /\ exists table_info, p = table_profile_of table_info include_columns).
Proof.
  intros Hflags. rewrite get_table_stats_unfold, Hflags. cbn [andb].
  destruct (get_table_stats_try_effects ref max_wait_secs call_analyze include_columns st)
    as (st1 & r1 & new & Hrun & Htr & Hsub & Hsleep & Hfetch & Hquiet & Her & Hun & _ & _
        & Hprof).
  destruct (get_table_stats_try_grows _ _ _ _ _ _ _ Hrun) as (Hgrow & _ & Hlen).
  rewrite Hrun. destruct r1 as [r|e].
  - exists st1, r, new. split; [reflexivity|].
    split; [exact Htr|]. split; [exact Hsub|]. split; [exact Hsleep|].
    split; [exact Hfetch|]. split; [exact Hquiet|]. split; [exact Hgrow|].
    split; [exact Hun|]. split; [exact Hlen|].
    intros p ->. destruct (Hprof p eq_refl) as [Hto Hti].
    split; [exact Hto|]. split; [exact Her | exact Hti].
  - exists (recorded ref e st1), None, new. split; [reflexivity|].
    unfold recorded. cbn [trace report with_report].
    split; [exact Htr|]. split; [exact Hsub|]. split; [exact Hsleep|].
    split; [exact Hfetch|]. split; [exact Hquiet|].
    split; [eapply report_grows_trans; [exact Hgrow | apply append_error_grows]|].
    split; [exact Hun|]. split; [exact Hlen|]. intros p [=].
Qed.

(** Any call with room for one nested call: what it costs and what it
    leaves behind. *)
Lemma get_table_stats_effects depth ref max_wait_secs call_analyze include_columns
    (st : State) :
  exists st' r new,
    get_table_stats (S (S depth)) ref max_wait_secs call_analyze include_columns st
    = Some (st', Returns r)
    /\ trace st' = trace st ++ new
    /\ (length (submissions_of new) <= 2)%nat
    /\ (length (fetches_of new) <= 2)%nat
    /\ total_sleep new <= 2 * Z.max 0 max_wait_secs
    /\ report_grows (report st) (report st')
    /\ num_profile_failed_unsupported_column_type (report st')
       <= num_profile_failed_unsupported_column_type (report st) + 1
    /\ (length (profile_table_timeouts (report st'))
        <= S (length (profile_table_timeouts (report st))))%nat
    /\ (forall p, r = Some p ->
          profile_table_timeouts (report st') = profile_table_timeouts (report st)
          /\ exists table_info with_columns,
               p = table_profile_of table_info with_columns
               /\ (with_columns = true ->
                   include_columns = true
                   /\ profile_table_errors (report st') = profile_table_errors (report st))).
Proof.
  pose proof (Z.le_max_l 0 max_wait_secs) as Hmax.
  destruct (call_analyze && include_columns) eqn:Hflags.
  2:{ destruct (get_table_stats_plain_effects (S depth) ref max_wait_secs call_analyze
                  include_columns st Hflags)
        as (st' & r & new & Hrun & Htr & Hsub & Hsleep & Hfetch & _ & Hgrow & Hun & Hlen
            & Hprof).
      exists st', r, new. split; [exact Hrun|]. split; [exact Htr|].
      split; [rewrite Hsub; destruct call_analyze; cbn; lia|].
      split; [lia|]. split; [destruct call_analyze; lia|].
      split; [exact Hgrow|]. split; [lia|]. split; [exact Hlen|].
      intros p Hp. destruct (Hprof p Hp) as (Hto & Her & ti & Hti).
      split; [exact Hto|]. exists ti, include_columns. split; [exact Hti|].
      intros ->. split; [reflexivity | exact Her]. }
  apply andb_true_iff in Hflags as [-> ->].
  rewrite get_table_stats_unfold. cbn [andb].
  destruct (get_table_stats_try_effects ref max_wait_secs true true st)
    as (st1 & r1 & new1 & Hrun & Htr & Hsub & Hsleep & Hfetch & _ & Her & Hun & _ & _
        & Hprof).
  destruct (get_table_stats_try_grows _ _ _ _ _ _ _ Hrun) as (Hgrow & _ & Hlen).
  rewrite Hrun. destruct r1 as [r|e].
  { exists st1, r, new1. split; [reflexivity|]. split; [exact Htr|].
    split; [rewrite Hsub; cbn; lia|]. split; [lia|]. split; [lia|].
    split; [exact Hgrow|]. split; [lia|]. split; [exact Hlen|].
    intros p ->. destruct (Hprof p eq_refl) as (Hto & ti & Hti).
    split; [exact Hto|]. exists ti, true. split; [exact Hti|].
    intros _. split; [reflexivity | exact Her]. }
  assert (Hgrow1 : report_grows (report st) (report (recorded ref e st1))).
  { unfold recorded. cbn [report with_report].
    eapply report_grows_trans; [exact Hgrow | apply append_error_grows]. }
  destruct (py_in _ _).
  2:{ exists (recorded ref e st1), None, new1. split; [reflexivity|].
      unfold recorded. cbn [trace report with_report].
      split; [exact Htr|]. split; [rewrite Hsub; cbn; lia|]. split; [lia|]. split; [lia|].
      split; [exact Hgrow1|]. split; [cbn; lia|]. split; [exact Hlen|]. intros p [=]. }
  destruct (get_table_stats_plain_effects depth ref max_wait_secs true false
              (counted (recorded ref e st1)) eq_refl)
    as (st' & r & new2 & Hrun2 & Htr2 & Hsub2 & Hsleep2 & Hfetch2 & _ & Hgrow2 & Hun2 & Hlen2
        & Hprof2).
  exists st', r, (new1 ++ new2). split; [exact Hrun2|].
  split; [rewrite Htr2; cbn [trace counted recorded with_report];
          rewrite Htr, app_assoc; reflexivity|].
  split; [rewrite submissions_of_app, length_app, Hsub, Hsub2; cbn; lia|].
  split; [rewrite fetches_of_app, length_app; lia|].
  split; [rewrite total_sleep_app; lia|].
  split.
  { eapply report_grows_trans; [exact Hgrow1|].
    eapply report_grows_trans; [apply count_unsupported_grows | exact Hgrow2]. }
  split; [rewrite Hun2; cbn; lia|].
  split.
  { (* a timeout in the first attempt would have returned, not raised *)
    destruct (get_table_stats_try_effects ref max_wait_secs true true st)
      as (st1' & r1' & new1' & Hrun' & _ & _ & _ & _ & _ & _ & _ & _ & Hto' & _).
    rewrite Hrun in Hrun'. injection Hrun' as <- <-.
    destruct Hto' as [Hto' | [Hr _]]; [|discriminate Hr].
    cbn [report counted recorded with_report append_error count_unsupported_column_type
         profile_table_timeouts] in Hlen2.
    rewrite Hto' in Hlen2. exact Hlen2. }
  intros p Hp. destruct (Hprof2 p Hp) as (Hto2 & _ & ti & Hti).
  split.
  { destruct (get_table_stats_try_effects ref max_wait_secs true true st)
      as (st1' & r1' & new1' & Hrun' & _ & _ & _ & _ & _ & _ & _ & _ & Hto' & _).
    rewrite Hrun in Hrun'. injection Hrun' as <- <-.
    destruct Hto' as [Hto' | [Hr _]]; [|discriminate Hr].
    rewrite Hto2. cbn. exact Hto'. }
  exists ti, false. split; [exact Hti|]. intros [=].
Qed.

(** One call of [get_table_stats] submits at most two statements, fetches the
    metadata at most twice and sleeps at most twice [max_wait_secs] in all;
    a call that cannot retry (one of the flags off) does at most one of each
    and sleeps at most [max_wait_secs]. *)
Theorem call_effort_bounded depth ref max_wait_secs call_analyze include_columns (st : State) :
  exists st' r new,
    get_table_stats (S (S depth)) ref max_wait_secs call_analyze include_columns st
    = Some (st', Returns r)
    /\ trace st' = trace st ++ new
    /\ (length (submissions_of new) <= 2)%nat
    /\ (length (fetches_of new) <= 2)%nat
    /\ total_sleep new <= 2 * Z.max 0 max_wait_secs
    /\ (call_analyze && include_columns = false ->
          (length (submissions_of new) <= 1)%nat
          /\ (length (fetches_of new) <= 1)%nat
          /\ total_sleep new <= Z.max 0 max_wait_secs).
Proof.
  destruct (get_table_stats_effects depth ref max_wait_secs call_analyze include_columns st)
    as (st' & r & new & Hrun & Htr & Hsub & Hfetch & Hsleep & _).
  exists st', r, new. split; [exact Hrun|]. split; [exact Htr|].
  split; [exact Hsub|]. split; [exact Hfetch|]. split; [exact Hsleep|].
  intros Hflags.
  destruct (get_table_stats_plain_effects (S depth) ref max_wait_secs call_analyze
              include_columns st Hflags)
    as (st1 & r1 & new1 & Hrun1 & Htr1 & Hsub1 & Hsleep1 & Hfetch1 & _).
  rewrite Hrun in Hrun1. injection Hrun1 as <- <-.
  rewrite Htr in Htr1. apply app_inv_head in Htr1. subst new1.
  pose proof (Z.le_max_l 0 max_wait_secs).
  split; [rewrite Hsub1; destruct call_analyze; cbn; lia|].
  split; [exact Hfetch1|]. destruct call_analyze; lia.
Qed.



(** With [call_analyze] false a call makes exactly one remote call, the
    metadata fetch, whatever comes of it: nothing is submitted, polled or
    slept, and neither the timeout list nor the unsupported-column counter
    changes. *)
Theorem no_analyze_only_fetches depth ref max_wait_secs include_columns (st : State) :
  exists st' r,
    get_table_stats (S depth) ref max_wait_secs false include_columns st
    = Some (st', Returns r)
    /\ trace st' = trace st ++ [EvGetTable (qualified_table_name ref)]
    /\ profile_table_timeouts (report st') = profile_table_timeouts (report st)
    /\ num_profile_failed_unsupported_column_type (report st')
       = num_profile_failed_unsupported_column_type (report st).
Proof.
  rewrite get_table_stats_unfold. unfold get_table_stats_try. cbn [andb].
  destruct (get_table_profile_effects ref include_columns st)
    as (st1 & r1 & Hrun & Htr & Hto & _ & Hun & _).
  unfold bind at 1. rewrite Hrun. destruct r1 as [p|e].
  - exists st1, (Some p). repeat split; assumption.
  - exists (recorded ref e st1), None. repeat split; assumption.
Qed.

(** *** The extractor, the classifier and the grouping key as functions *)

(** The extractor computes its profile from the metadata alone and touches
    nothing but the parse-failure counter, which rises by the number of
    numeric keys read that hold a non-integer: never by more than two plus
    two per column profiled, and by nothing exactly when every numeric key
    read is missing or an integer. *)
Theorem extractor_counts_failed_casts table_info include_columns (st : State) :
  exists st',
    _create_table_profile table_info include_columns st
    = Some (st', Returns (table_profile_of table_info include_columns))
    /\ only_int_casts (failed_casts table_info (numeric_keys table_info include_columns)) st st'
    /\ 0 <= failed_casts table_info (numeric_keys table_info include_columns)
       <= 2 + (if include_columns then 2 * Z.of_nat (length (columns table_info)) else 0)
    /\ (num_profile_failed_int_casts (report st') = num_profile_failed_int_casts (report st)
        <-> Forall (fun key => unparseable table_info key = false)
              (numeric_keys table_info include_columns)).
Proof.
  destruct (create_table_profile_run table_info include_columns st) as (st' & Hrun & Hfr).
  exists st'. split; [exact Hrun|]. split; [exact Hfr|].
  split.
  - split; [apply failed_casts_nonneg|].
    etrans; [apply failed_casts_le|].
    unfold numeric_keys. rewrite length_app. cbn [length].
    destruct include_columns; [|cbn; lia].
    assert (Hlen : forall l : list string,
              length (flat_map (fun column => [col_stats_key column ".nullCount";
                                               col_stats_key column ".distinctCount"]) l)
              = (2 * length l)%nat).
    { induction l as [|c l IH]; [reflexivity|]. cbn [flat_map length app]. rewrite IH. lia. }
    rewrite Hlen, length_map. lia.
  - destruct Hfr as (_ & _ & _ & _ & _ & Hcasts). rewrite Hcasts.
    unfold failed_casts.
    generalize (numeric_keys table_info include_columns). intros keys.
    split.
    + intros Hsame. assert (Hnone : length (List.filter (unparseable table_info) keys) = 0%nat)
        by lia. clear Hsame Hcasts.
      induction keys as [|key keys IH]; [constructor|]. cbn in Hnone.
      destruct (unparseable table_info key) eqn:Hkey; [discriminate Hnone|].
      constructor; [exact Hkey | apply IH, Hnone].
    + intros Hall. clear Hcasts.
      assert (length (List.filter (unparseable table_info) keys) = 0%nat); [|lia].
      induction Hall as [|key keys Hkey _ IH]; [reflexivity|]. cbn. rewrite Hkey. exact IH.
Qed.

Lemma str_append_assoc a b c : (a +:+ b) +:+ c = a +:+ b +:+ c.
Proof.
  induction a as [|x a IH]; [reflexivity|]. rewrite !append_cons, IH. reflexivity.
Qed.

Lemma str_append_nil_r a : a +:+ "" = a.
Proof. induction a as [|x a IH]; [reflexivity|]. rewrite append_cons, IH. reflexivity. Qed.

Lemma prefix_append a : forall b, String.prefix a b = true <-> exists post, b = a +:+ post.
Proof.
  induction a as [|x a IH]; intros b.
  - split; [intros _; exists b; reflexivity | intros _; destruct b; reflexivity].
  - destruct b as [|y b].
    + split; [discriminate | intros [post Hpost]; rewrite append_cons in Hpost; discriminate].
    + cbn [String.prefix]. destruct (ascii_dec x y) as [<-|Hne].
      * rewrite IH. split; intros [post Hpost]; exists post.
        -- rewrite append_cons, Hpost. reflexivity.
        -- rewrite append_cons in Hpost. injection Hpost as ->. reflexivity.
      * split; [discriminate|]. intros [post Hpost].
        rewrite append_cons in Hpost. injection Hpost as <- _. contradiction.
Qed.

(** [needle in hay] holds exactly when [hay] is some text, then [needle],
    then some text. *)
Lemma py_in_substring needle hay :
  py_in needle hay = true <-> exists pre post, hay = pre +:+ needle +:+ post.
Proof.
  split.
  - induction hay as [|c hay IH]; cbn [py_in];
      destruct (String.prefix needle _) eqn:Hpre.
    + intros _. apply prefix_append in Hpre as [post ->]. exists "", post. reflexivity.
    + discriminate.
    + intros _. apply prefix_append in Hpre as [post ->]. exists "", post. reflexivity.
    + intros Hin. destruct (IH Hin) as (pre & post & ->).
      exists (String c pre), post. rewrite append_cons. reflexivity.
  - intros (pre & post & ->). induction pre as [|c pre IH].
    + rewrite append_nil_l.
      assert (Hpre : String.prefix needle (needle +:+ post) = true)
        by (apply prefix_append; exists post; reflexivity).
      destruct (needle +:+ post); cbn [py_in]; rewrite Hpre; reflexivity.
    + rewrite append_cons. cbn [py_in]. rewrite IH.
      destruct (String.prefix needle _); reflexivity.
Qed.

(** The classifier asks for a retry exactly when the unsupported-column
    token occurs somewhere in the error's message; it then counts the error
    once, and otherwise changes nothing. *)
Theorem classifier_matches_token_anywhere ref e (st : State) :
  ((exists pre post, str_of_error e = pre +:+ unsupported_column_token +:+ post) ->
   _should_retry_unsupported_column ref e st = Some (counted st, Returns true))
  /\ (~ (exists pre post, str_of_error e = pre +:+ unsupported_column_token +:+ post) ->
      _should_retry_unsupported_column ref e st = Some (st, Returns false)).
Proof.
  unfold _should_retry_unsupported_column.
  destruct (py_in unsupported_column_token (str_of_error e)) eqn:Hin.
  - split; [reflexivity|]. intros Hno. exfalso. apply Hno, py_in_substring, Hin.
  - split; [|reflexivity]. intros Hyes. apply py_in_substring in Hyes. congruence.
Qed.

Lemma chars_append a b :
  list_ascii_of_string (a +:+ b) = list_ascii_of_string a ++ list_ascii_of_string b.
Proof.
  induction a as [|x a IH]; [reflexivity|].
  rewrite append_cons. cbn [list_ascii_of_string]. rewrite IH. reflexivity.
Qed.

(** Either [c] does not occur in [s], or [s] splits at its first [c]. *)
Lemma first_occurrence c s :
  lacks c s \/ exists pre post, s = pre +:+ String c post /\ lacks c pre.
Proof.
  unfold lacks. induction s as [|a s IH].
  - left. intros [].
  - destruct (ascii_dec a c) as [->|Hne].
    + right. exists "", s. split; [reflexivity | intros []].
    + destruct IH as [Hno | (pre & post & -> & Hno)].
      * left. intros [Heq | Hin]; [contradiction | apply Hno, Hin].
      * right. exists (String a pre), post. split; [reflexivity|].
        intros [Heq | Hin]; [contradiction | apply Hno, Hin].
Qed.

Lemma lacks_through c d pre post :
  c <> d -> lacks c (pre +:+ String d post) -> lacks c (pre +:+ String d "").
Proof.
  unfold lacks. rewrite !chars_append. cbn [list_ascii_of_string].
  intros Hne Hno Hin. apply Hno. apply in_app_or in Hin as [Hin | Hin].
  - apply in_or_app. left. exact Hin.
  - destruct Hin as [Heq | []]. apply in_or_app. right. left. exact Heq.
Qed.

(** The grouping key is a prefix of the message, is its own grouping key,
    and is empty only for the empty message. *)
Theorem grouping_key_is_stable_prefix (msg : string) :
  (exists rest, msg = base_msg_of msg +:+ rest)
  /\ base_msg_of (base_msg_of msg) = base_msg_of msg
  /\ (base_msg_of msg = "" -> msg = "").
Proof.
  destruct (first_occurrence "`" msg) as [Hnob | (pre & post & -> & Hno)].
  - destruct (first_occurrence "'" msg) as [Hnoq | (pre & post & -> & Hno)].
    + rewrite (base_msg_whole msg Hnob Hnoq).
      split; [exists ""; symmetry; apply str_append_nil_r|].
      split; [apply base_msg_whole; assumption | tauto].
    + pose proof (base_msg_quote pre post Hnob Hno) as Hkey.
      change (pre +:+ "'" +:+ post) with (pre +:+ String "'" post) in Hkey.
      rewrite Hkey.
      split; [exists post; rewrite str_append_assoc; reflexivity|]. split.
      * apply (base_msg_quote pre ""); [|exact Hno].
        apply (lacks_through _ _ _ post); [discriminate | exact Hnob].
      * destruct pre; rewrite ?append_cons, ?append_nil_l; discriminate.
  - pose proof (base_msg_backtick pre post Hno) as Hkey.
    change (pre +:+ "`" +:+ post) with (pre +:+ String "`" post) in Hkey.
    rewrite Hkey.
    split; [exists post; rewrite str_append_assoc; reflexivity|]. split.
    + apply (base_msg_backtick pre "" Hno).
    + destruct pre; rewrite ?append_cons, ?append_nil_l; discriminate.
Qed.

(** A statement that is FAILED, CANCELED or CLOSED when its submission
    returns is never polled and its table is never fetched in that attempt:
    the [try] block stops right after the submission, raising an error that
    carries the status's message and code under the context "analyze-table";
    a SUCCEEDED, PENDING or RUNNING answer raises nothing at that point. *)
Theorem failed_submission_is_not_polled ref max_wait_secs include_columns (st : State)
    w response :
  execute_statement (analyze_statement ref include_columns) (catalog ref) "0s" warehouse_id
    (world st) = (w, Returns response) ->
  (state (status response) ∈ [FAILED; CANCELED; CLOSED] ->
   get_table_stats_try ref max_wait_secs true include_columns st
   = Some (submitted ref include_columns w st,
           Raises {| de_message := se_message (error (status response));
                     de_error_code := se_error_code (error (status response));
                     de_status := StatementState_value (state (status response));
                     de_context := "analyze-table" |}))
  /\ (state (status response) ∉ [FAILED; CANCELED; CLOSED] ->
      _analyze_table ref include_columns st
      = Some (submitted ref include_columns w st, Returns response)).
Proof.
  intros Hexec.
  destruct (analyze_table_run ref include_columns st) as (w' & res & Hexec' & Hrun).
  rewrite Hexec in Hexec'. injection Hexec' as <- <-.
  fold (submitted ref include_columns w st) in Hrun.
  split; intros Hstate.
  - unfold get_table_stats_try, bind at 1. rewrite Hrun.
    rewrite !elem_of_cons, elem_of_nil in Hstate.
    destruct Hstate as [-> | [-> | [-> | []]]]; reflexivity.
  - rewrite Hrun. rewrite !elem_of_cons, elem_of_nil in Hstate.
    destruct (state (status response)); try reflexivity; exfalso; apply Hstate; tauto.
Qed.

(** With [include_columns] true the extractor returns one column profile per
    declared column, in the declared order (a name declared twice is
    profiled twice); the profile at position [i] bears the name of column
    [i], its two counts are what parses out of that column's nullCount and
    distinctCount keys, and its five other statistics are the values stored
    under that column's keys, untouched. *)
Theorem column_profiles_follow_columns table_info (st : State) :
  exists st' p,
    _create_table_profile table_info true st = Some (st', Returns p)
    /\ length (column_profiles p) = length (columns table_info)
    /\ forall (i : nat) column,
         columns table_info !! i = Some column ->
         exists profile,
           column_profiles p !! i = Some profile
           /\ cp_name profile = ci_name column
           /\ null_count profile
              = properties table_info !! col_stats_key (ci_name column) ".nullCount"
                  ≫= parse_int
           /\ distinct_count profile
              = properties table_info !! col_stats_key (ci_name column) ".distinctCount"
                  ≫= parse_int
           /\ cp_min profile = properties table_info !! col_stats_key (ci_name column) ".min"
           /\ cp_max profile = properties table_info !! col_stats_key (ci_name column) ".max"
           /\ avg_len profile
              = properties table_info !! col_stats_key (ci_name column) ".avgLen"
           /\ max_len profile
              = properties table_info !! col_stats_key (ci_name column) ".maxLen"
           /\ version profile
              = properties table_info !! col_stats_key (ci_name column) ".version".
Proof.
  destruct (create_table_profile_run table_info true st) as (st' & Hrun & _).
  exists st', (table_profile_of table_info true). split; [exact Hrun|].
  cbn [column_profiles table_profile_of]. split; [rewrite !length_map; reflexivity|].
  intros i column Hcolumn.
  exists (column_profile_of table_info (ci_name column)).
  split; [|repeat split].
  rewrite !list_lookup_fmap, Hcolumn. reflexivity.
Qed.

End Proofs.

Section WarehouseProofs.
Context {E : Env} {W : Warehouses}.

(** [start_warehouse] never raises: it returns what [warehouses.start]
    returned, or absence exactly when that call raised; it writes nothing to
    the report or the log. *)
Theorem start_warehouse_never_raises (st : State) :
  exists st' r,
    start_warehouse st = Some (st', Returns r)
    /\ world st' = fst (warehouses_start warehouse_id (world st))
    /\ report st' = report st
    /\ trace st' = trace st
    /\ (r = None <-> exists e, snd (warehouses_start warehouse_id (world st)) = Raises e)
    /\ (forall wait, r = Some wait <->
                     snd (warehouses_start warehouse_id (world st)) = Returns wait).
Proof.
  unfold start_warehouse, try_except, bind, warehouse_call, ret.
  destruct (warehouses_start warehouse_id (world st)) as [w [wait|e]]; cbn [fst snd].
  - eexists _, (Some wait). split; [reflexivity|]. cbn [world report trace].
    repeat split; try discriminate; try congruence.
    intros [e He]. discriminate He.
  - eexists _, None. split; [reflexivity|]. cbn [world report trace].
    repeat split; try discriminate; try congruence.
    intros _. exists e. reflexivity.
Qed.

(** [check_profiling_connectivity] never returns false: it returns true when
    [warehouses.get] returns, and otherwise lets that call's error through
    unchanged; it writes nothing to the report or the log. *)
Theorem connectivity_check_true_or_raises (st : State) :
  exists st' res,
    check_profiling_connectivity st = Some (st', res)
    /\ world st' = fst (warehouses_get warehouse_id (world st))
    /\ report st' = report st
    /\ trace st' = trace st
    /\ res <> Returns false
    /\ (res = Returns true <->
        exists info, snd (warehouses_get warehouse_id (world st)) = Returns info)
    /\ (forall e, res = Raises e <->
                  snd (warehouses_get warehouse_id (world st)) = Raises e).
Proof.
  unfold check_profiling_connectivity, bind, warehouse_call, ret.
  destruct (warehouses_get warehouse_id (world st)) as [w [info|e]]; cbn [fst snd].
  - eexists _, (Returns true). split; [reflexivity|]. cbn [world report trace].
    repeat split; try discriminate; try congruence.
    intros _. exists info. reflexivity.
  - eexists _, (Raises e). split; [reflexivity|]. cbn [world report trace].
    repeat split; try discriminate; try congruence.
    intros [info Hinfo]. discriminate Hinfo.
Qed.

End WarehouseProofs.

(** ** The theorems at concrete inputs of the scripted environment *)

Lemma profile_only_after_success_witness :
  exists st' r new,
    get_table_stats (E := script_env) 2 sample_ref 10 true true (script_state succeeding_world)
    = Some (st', Returns r)
    /\ trace st' = trace (script_state succeeding_world) ++ new
    /\ forall p, r = Some p ->
         (true = false /\ submissions_of new = [])
         \/ (true = true
             /\ exists pre, new = pre ++ [EvInspect SUCCEEDED; EvGetTable (dotted sample_ref)]).
Proof.
  exact (profile_only_after_success (E := script_env) 0 sample_ref 10 true true
           (script_state succeeding_world)).
Defined.

Lemma get_table_stats_never_raises_witness :
  exists st' r,
    get_table_stats (E := script_env) 2 sample_ref 10 true true
      (script_state unsupported_column_world)
    = Some (st', Returns r).
Proof.
  exact (proj1 (get_table_stats_never_raises (E := script_env) 0 sample_ref 10 true true
                  (script_state unsupported_column_world))).
Defined.

Lemma unsupported_column_retries_once_witness :
  let st := script_state twice_unsupported_world in
  let st1 := state_after (get_table_stats_try sample_ref 10 true true) st in
  get_table_stats_try sample_ref 10 true true st = Some (st1, Raises unsupported_column_error)
  /\ py_in unsupported_column_token (str_of_error unsupported_column_error) = true
  /\ exists st' new,
       get_table_stats 2 sample_ref 10 true true st = Some (st', Returns None)
       /\ trace st' = trace st ++ new
       /\ submissions_of new
          = [analyze_statement sample_ref true; analyze_statement sample_ref false]
       /\ num_profile_failed_unsupported_column_type (report st') = 1.
Proof.
  intros st st1.
  assert (Htry : get_table_stats_try sample_ref 10 true true st
                 = Some (st1, Raises unsupported_column_error)) by reflexivity.
  assert (Htoken : py_in unsupported_column_token (str_of_error unsupported_column_error)
                   = true) by reflexivity.
  split; [exact Htry|]. split; [exact Htoken|].
  destruct (unsupported_column_retries_once (E := script_env) 0 sample_ref 10
              st st1 unsupported_column_error Htry Htoken)
    as (Hsame & st' & r & new & Hrun & Htr & Hsub & Hcount & Hagain).
  destruct (Hagain (state_after (get_table_stats_try sample_ref 10 true false)
                      (counted (recorded sample_ref unsupported_column_error st1)))
              unsupported_column_error eq_refl) as [_ ->].
  exists st', new. rewrite Hsame.
  split; [exact Hrun|]. split; [exact Htr|]. split; [exact Hsub|]. exact Hcount.
Defined.

Lemma poller_backoff_sequence_witness :
  0 <= 10
  /\ exists st' r new,
       _check_analyze_table_statement_status (E := script_env) (response_in PENDING "") 10
         (script_state succeeding_world) = Some (st', r)
       /\ trace st' = trace (script_state succeeding_world) ++ new
       /\ (forall (i : nat) d,
             sleeps_of new !! i = Some d ->
             d = Z.min (scheduled_backoff i) (10 - scheduled_wait i) /\ 1 <= d)
       /\ Z.of_nat (length (sleeps_of new)) <= Z.log2_up (10 + 1) + 1.
Proof.
  assert (H : 0 <= 10) by lia.
  split; [exact H|].
  exact (poller_backoff_sequence (E := script_env) (response_in PENDING "") 10
           (script_state succeeding_world) H).
Defined.

Lemma pending_statement_times_out_witness :
  non_terminal (state (status (response_in RUNNING ""))) = true
  /\ Forall answered_non_terminal
       (events_of (_check_analyze_table_statement_status (E := script_env)
                     (response_in RUNNING "") 5)
          (submitted (E := script_env) sample_ref true pending_world
             (script_state pending_world)))
  /\ exists st',
       get_table_stats (E := script_env) 1 sample_ref 5 true true (script_state pending_world)
       = Some (st', Returns None)
       /\ profile_table_timeouts (report st') = [dotted sample_ref].
Proof.
  assert (Hs : non_terminal (state (status (response_in RUNNING ""))) = true) by reflexivity.
  assert (Hall : Forall answered_non_terminal
            (events_of (_check_analyze_table_statement_status (E := script_env)
                     (response_in RUNNING "") 5)
               (submitted (E := script_env) sample_ref true pending_world
             (script_state pending_world)))).
  { vm_compute. repeat constructor. }
  split; [exact Hs|]. split; [exact Hall|].
  destruct (proj2 (pending_statement_times_out (E := script_env) (response_in RUNNING "") 5 Hs)
              0%nat sample_ref true (script_state pending_world) pending_world eq_refl Hall)
    as (st' & Hrun & _ & Hroom).
  exists st'. split; [exact Hrun|]. apply Hroom. cbn. lia.
Defined.

Lemma poller_checks_status_at_least_once_witness :
  0 <= 0
  /\ _check_analyze_table_statement_status (E := script_env) (response_in RUNNING "") 0
       (script_state pending_world)
     = Some (log (EvInspect RUNNING) (script_state pending_world), Returns false).
Proof.
  assert (H : 0 <= 0) by lia.
  split; [exact H|].
  exact (proj2 (poller_checks_status_at_least_once (E := script_env) (response_in RUNNING "") 0
                  (script_state pending_world) H)).
Defined.

Lemma errors_grouped_by_message_prefix_witness :
  let st := script_state (failing_fetch_world ["Table `a.b.c` not found";
                                               "Table `d.e.f` not found"]) in
  let e1 := sdk_error "Table `a.b.c` not found" in
  let e2 := sdk_error "Table `d.e.f` not found" in
  let st1 := state_after (get_table_stats_try sample_ref 10 false true) st in
  let st2 := state_after (get_table_stats_try sample_ref 10 false true)
               (recorded sample_ref e1 st1) in
  (2 <= max_elements (Env := script_env))%nat
  /\ profile_table_errors (report st) !! "Table `" = None
  /\ get_table_stats_try sample_ref 10 false true st = Some (st1, Raises e1)
  /\ get_table_stats_try sample_ref 10 false true (recorded sample_ref e1 st1)
     = Some (st2, Raises e2)
  /\ profile_table_errors (report (recorded sample_ref e2 st2)) !! "Table `"
     = Some [(dotted sample_ref, "Table `a.b.c` not found");
             (dotted sample_ref, "Table `d.e.f` not found")].
Proof.
  intros st e1 e2 st1 st2.
  assert (Hcap : (2 <= max_elements (Env := script_env))%nat) by (cbn; lia).
  assert (Hnew : profile_table_errors (report st) !! "Table `" = None) by reflexivity.
  assert (Htry1 : get_table_stats_try sample_ref 10 false true st = Some (st1, Raises e1))
    by reflexivity.
  assert (Htry2 : get_table_stats_try sample_ref 10 false true (recorded sample_ref e1 st1)
                  = Some (st2, Raises e2)) by reflexivity.
  split; [exact Hcap|]. split; [exact Hnew|]. split; [exact Htry1|]. split; [exact Htry2|].
  pose proof (errors_grouped_by_message_prefix (E := script_env) "Table `a.b.c` not found")
    as (_ & _ & _ & Hpair).
  destruct (Hpair 0%nat sample_ref sample_ref 10 10 false false true true st st1 st2 e1 e2
              Hcap Hnew eq_refl eq_refl Htry1 Htry2)
    as (_ & _ & _ & _ & Hsamples & _).
  exact Hsamples.
Defined.

Lemma unparseable_value_is_absent_and_counted_witness :
  let table_info := sample_table {[ num_rows_key := "not-a-number" ]} in
  properties table_info !! num_rows_key = Some "not-a-number"
  /\ parse_int (Env := script_env) "not-a-number" = None
  /\ _get_int (E := script_env) table_info num_rows_key (script_state pending_world)
     = Some (with_report count_failed_int_cast (script_state pending_world), Returns None).
Proof.
  intros table_info.
  assert (Hvalue : properties table_info !! num_rows_key = Some "not-a-number")
    by reflexivity.
  assert (Hparse : parse_int (Env := script_env) "not-a-number" = None) by reflexivity.
  split; [exact Hvalue|]. split; [exact Hparse|].
  exact (proj1 (unparseable_value_is_absent_and_counted (E := script_env) table_info
                  num_rows_key "not-a-number" (script_state pending_world) Hvalue Hparse)).
Defined.

Lemma unsupported_counter_untouched_without_both_flags_witness :
  let st := script_state (failing_fetch_world [unsupported_column_message]) in
  let e := sdk_error unsupported_column_message in
  let st1 := state_after (get_table_stats_try sample_ref 10 false true) st in
  (false = false \/ true = false)
  /\ get_table_stats_try sample_ref 10 false true st = Some (st1, Raises e)
  /\ py_in unsupported_column_token (str_of_error e) = true
  /\ get_table_stats 1 sample_ref 10 false true st = Some (recorded sample_ref e st1, Returns None)
  /\ num_profile_failed_unsupported_column_type (report (recorded sample_ref e st1))
     = num_profile_failed_unsupported_column_type (report st).
Proof.
  intros st e st1.
  assert (Hflags : false = false \/ true = false) by (left; reflexivity).
  assert (Htry : get_table_stats_try sample_ref 10 false true st = Some (st1, Raises e))
    by reflexivity.
  assert (Htoken : py_in unsupported_column_token (str_of_error e) = true) by reflexivity.
  split; [exact Hflags|]. split; [exact Htry|]. split; [exact Htoken|].
  pose proof (unsupported_counter_untouched_without_both_flags (E := script_env) 0 sample_ref
                10 false true st st1 e Hflags Htry Htoken) as (Hrun & _ & _ & Hcount).
  split; [exact Hrun | exact Hcount].
Defined.

Lemma absent_key_is_absent_and_not_counted_witness :
  properties (sample_table ∅) !! num_rows_key = None
  /\ _get_int (E := script_env) (sample_table ∅) num_rows_key (script_state pending_world)
     = Some (script_state pending_world, Returns None).
Proof.
  assert (Habsent : properties (sample_table ∅) !! num_rows_key = None) by reflexivity.
  split; [exact Habsent|].
  exact (proj1 (absent_key_is_absent_and_not_counted (E := script_env) (sample_table ∅)
                  num_rows_key (script_state pending_world) Habsent)).
Defined.

Lemma poller_succeeded_at_once_witness :
  state (status (response_in SUCCEEDED "")) = SUCCEEDED
  /\ exists st' new,
       _check_analyze_table_statement_status (E := script_env) (response_in SUCCEEDED "") 10
         (script_state succeeding_world)
       = Some (st', Returns true)
       /\ world st' = world (script_state succeeding_world)
       /\ report st' = report (script_state succeeding_world)
       /\ trace st' = trace (script_state succeeding_world) ++ new
       /\ Forall (fun ev => ev = EvInspect SUCCEEDED) new.
Proof.
  assert (Hs : state (status (response_in SUCCEEDED "")) = SUCCEEDED) by reflexivity.
  split; [exact Hs|].
  exact (poller_succeeded_at_once (E := script_env) (response_in SUCCEEDED "") 10
           (script_state succeeding_world) Hs).
Defined.

Lemma poller_raises_from_last_lookup_witness :
  let st := script_state failing_poll_world in
  let run := _check_analyze_table_statement_status (E := script_env)
               (response_in PENDING "") 10 in
  run st = Some (state_after run st, Raises failed_poll_error)
  /\ trace (state_after run st) = trace st ++ events_of run st
  /\ exists pre answer,
       events_of run st = pre ++ [EvGetStatement "stmt-1" answer]
       /\ match answer with
          | Raises e' => e' = failed_poll_error
          | Returns response =>
              state (status response) ∈ [FAILED; CANCELED; CLOSED]
              /\ failed_poll_error
                 = {| de_message := se_message (error (status response));
                      de_error_code := se_error_code (error (status response));
                      de_status := StatementState_value (state (status response));
                      de_context := "get-statement" |}
          end.
Proof.
  intros st run.
  assert (Hrun : run st = Some (state_after run st, Raises failed_poll_error)) by reflexivity.
  assert (Htr : trace (state_after run st) = trace st ++ events_of run st) by reflexivity.
  split; [exact Hrun|]. split; [exact Htr|].
  exact (poller_raises_from_last_lookup (E := script_env) (response_in PENDING "") 10
           st (state_after run st) failed_poll_error (events_of run st) Hrun Htr).
Defined.

Lemma failed_submission_is_not_polled_witness :
  let st := script_state unsupported_column_world in
  let w := fst (execute_statement (Env := script_env) (analyze_statement sample_ref true)
                  "main" "0s" "warehouse-1" unsupported_column_world) in
  execute_statement (Env := script_env) (analyze_statement sample_ref true) (catalog sample_ref)
    "0s" (warehouse_id (Env := script_env)) (world st)
  = (w, Returns (response_in FAILED unsupported_column_message))
  /\ state (status (response_in FAILED unsupported_column_message)) ∈ [FAILED; CANCELED; CLOSED]
  /\ get_table_stats_try sample_ref 10 true true st
     = Some (submitted sample_ref true w st, Raises unsupported_column_error).
Proof.
  intros st w.
  assert (Hexec : execute_statement (Env := script_env) (analyze_statement sample_ref true)
                    (catalog sample_ref) "0s" (warehouse_id (Env := script_env)) (world st)
                  = (w, Returns (response_in FAILED unsupported_column_message)))
    by reflexivity.
  assert (Hstate : state (status (response_in FAILED unsupported_column_message))
                   ∈ [FAILED; CANCELED; CLOSED]) by (cbn; apply elem_of_cons; left; reflexivity).
  split; [exact Hexec|]. split; [exact Hstate|].
  exact (proj1 (failed_submission_is_not_polled (E := script_env) sample_ref 10 true st w
                  (response_in FAILED unsupported_column_message) Hexec) Hstate).
Defined.

Lemma poller_never_oversleeps_witness :
  exists st' r new,
    _check_analyze_table_statement_status (E := script_env) (response_in RUNNING "") 5
      (script_state pending_world) = Some (st', r)
    /\ trace st' = trace (script_state pending_world) ++ new
    /\ total_sleep new <= Z.max 0 5
    /\ (r = Returns false ->
          total_sleep new = Z.max 0 5 /\ 5 <= scheduled_wait (length (sleeps_of new))).
Proof.
  exact (poller_never_oversleeps (E := script_env) (response_in RUNNING "") 5
           (script_state pending_world)).
Defined.

Lemma poller_one_lookup_per_sleep_witness :
  exists st' r new,
    _check_analyze_table_statement_status (E := script_env) (response_in PENDING "") 10
      (script_state succeeding_world) = Some (st', r)
    /\ trace st' = trace (script_state succeeding_world) ++ new
    /\ report st' = report (script_state succeeding_world)
    /\ length (lookups_of new) = length (sleeps_of new)
    /\ Forall (fun lookup => fst lookup = "stmt-1") (lookups_of new)
    /\ Forall poller_event new.
Proof.
  exact (poller_one_lookup_per_sleep (E := script_env) (response_in PENDING "") 10
           (script_state succeeding_world)).
Defined.

Lemma call_effort_bounded_witness :
  exists st' r new,
    get_table_stats (E := script_env) 2 sample_ref 10 true true
      (script_state twice_unsupported_world) = Some (st', Returns r)
    /\ trace st' = trace (script_state twice_unsupported_world) ++ new
    /\ (length (submissions_of new) <= 2)%nat
    /\ (length (fetches_of new) <= 2)%nat
    /\ total_sleep new <= 2 * Z.max 0 10
    /\ (true && true = false ->
          (length (submissions_of new) <= 1)%nat
          /\ (length (fetches_of new) <= 1)%nat
          /\ total_sleep new <= Z.max 0 10).
Proof.
  exact (call_effort_bounded (E := script_env) 0 sample_ref 10 true true
           (script_state twice_unsupported_world)).
Defined.



Lemma no_analyze_only_fetches_witness :
  exists st' r,
    get_table_stats (E := script_env) 1 sample_ref 10 false true
      (script_state (failing_fetch_world [unsupported_column_message]))
    = Some (st', Returns r)
    /\ trace st'
       = trace (script_state (failing_fetch_world [unsupported_column_message]))
         ++ [EvGetTable (dotted sample_ref)]
    /\ profile_table_timeouts (report st')
       = profile_table_timeouts
           (report (script_state (failing_fetch_world [unsupported_column_message])))
    /\ num_profile_failed_unsupported_column_type (report st')
       = num_profile_failed_unsupported_column_type
           (report (script_state (failing_fetch_world [unsupported_column_message]))).
Proof.
  exact (no_analyze_only_fetches (E := script_env) 0 sample_ref 10 true
           (script_state (failing_fetch_world [unsupported_column_message]))).
Defined.

Lemma extractor_counts_failed_casts_witness :
  let table_info := sample_table {[ num_rows_key := "not-a-number" ]} in
  exists st',
    _create_table_profile (E := script_env) table_info true (script_state pending_world)
    = Some (st', Returns (table_profile_of (E := script_env) table_info true))
    /\ only_int_casts
         (failed_casts (E := script_env) table_info
            (numeric_keys table_info true))
         (script_state pending_world) st'
    /\ 0 <= failed_casts (E := script_env) table_info
              (numeric_keys table_info true)
       <= 2 + 2 * Z.of_nat (length (columns table_info))
    /\ (num_profile_failed_int_casts (report st')
        = num_profile_failed_int_casts (report (script_state pending_world))
        <-> Forall (fun key => unparseable (E := script_env) table_info key = false)
              (numeric_keys table_info true)).
Proof.
  intros table_info.
  exact (extractor_counts_failed_casts (E := script_env) table_info true
           (script_state pending_world)).
Defined.

Lemma classifier_matches_token_anywhere_witness :
  (exists pre post,
     str_of_error unsupported_column_error = pre +:+ unsupported_column_token +:+ post)
  /\ _should_retry_unsupported_column (E := script_env) sample_ref unsupported_column_error
       (script_state pending_world)
     = Some (counted (script_state pending_world), Returns true).
Proof.
  assert (Hin : exists pre post,
            str_of_error unsupported_column_error
            = pre +:+ unsupported_column_token +:+ post).
  { exists "Column `x` has type MAP which is unsupported ", "". reflexivity. }
  split; [exact Hin|].
  exact (proj1 (classifier_matches_token_anywhere (E := script_env) sample_ref
                  unsupported_column_error (script_state pending_world)) Hin).
Defined.

Lemma grouping_key_is_stable_prefix_witness :
  (exists rest, "can't open `t`" = base_msg_of "can't open `t`" +:+ rest)
  /\ base_msg_of (base_msg_of "can't open `t`") = base_msg_of "can't open `t`"
  /\ (base_msg_of "can't open `t`" = "" -> "can't open `t`" = "").
Proof.
  exact (grouping_key_is_stable_prefix "can't open `t`").
Defined.

Lemma start_warehouse_never_raises_witness :
  exists st' r,
    start_warehouse (E := script_env_without_warehouse) (W := script_warehouses_missing)
      (@Build_State script_env_without_warehouse pending_world empty_report [])
    = Some (st', Returns r)
    /\ r = None.
Proof.
  destruct (start_warehouse_never_raises (E := script_env_without_warehouse)
              (W := script_warehouses_missing)
              (@Build_State script_env_without_warehouse pending_world empty_report []))
    as (st' & r & Hrun & _ & _ & _ & Hnone & _).
  exists st', r. split; [exact Hrun|].
  apply Hnone. exists (sdk_error "warehouse not found"). reflexivity.
Defined.

Lemma connectivity_check_true_or_raises_witness :
  exists st' res,
    check_profiling_connectivity (E := script_env) (W := script_warehouses)
      (script_state pending_world)
    = Some (st', res)
    /\ res = Returns true.
Proof.
  destruct (connectivity_check_true_or_raises (E := script_env) (W := script_warehouses)
              (script_state pending_world))
    as (st' & res & Hrun & _ & _ & _ & _ & Htrue & _).
  exists st', res. split; [exact Hrun|].
  apply Htrue. exists "RUNNING". reflexivity.
Defined.

Lemma column_profiles_follow_columns_witness :
  exists st' p,
    _create_table_profile (E := script_env) profiled_table true (script_state pending_world)
    = Some (st', Returns p)
    /\ length (column_profiles p) = 2%nat.
Proof.
  destruct (column_profiles_follow_columns (E := script_env) profiled_table
              (script_state pending_world)) as (st' & p & Hrun & Hlen & _).
  exists st', p. split; [exact Hrun | exact Hlen].
Defined.
